(** * Certificate pin extractor (scripts/extract-pins.py)

    A shallow embedding of the script and the properties of its two parts:
    the pin extractor [extract_pin] and the report generator [main].

    Python [str] values are sequences of Unicode code points, the external
    tool chain is an oracle from the shell command to what [subprocess.run]
    does with it, and the script's effects (lines printed, commands run,
    exceptions raised) are collected by a small trace-and-exception monad. *)

From Stdlib Require Import List NArith ZArith Bool String Ascii Lia.
Import ListNotations.

Local Open Scope N_scope.

(** ** Python strings *)

Module PyStr.

(** A [str] is a list of code points. *)
Definition pystr := list N.

(** A literal that holds ASCII characters only. *)
Definition lit (s : string) : pystr :=
  List.map N_of_ascii (list_ascii_of_string s).

Definition eqb (a b : pystr) : bool :=
  if list_eq_dec N.eq_dec a b then true else false.

(** [str.isspace] on one code point: the table of CPython's
    [_PyUnicode_IsWhitespace]. *)
Definition is_whitespace (c : N) : bool :=
  ((9 <=? c) && (c <=? 13))
  || ((28 <=? c) && (c <=? 32))
  || (c =? 133) || (c =? 160) || (c =? 5760)
  || ((8192 <=? c) && (c <=? 8202))
  || (c =? 8232) || (c =? 8233) || (c =? 8239) || (c =? 8287)
  || (c =? 12288).

Fixpoint lstrip (s : pystr) : pystr :=
  match s with
  | [] => []
  | c :: r => if is_whitespace c then lstrip r else s
  end.

Definition rstrip (s : pystr) : pystr := rev (lstrip (rev s)).

(** [s.strip()] with no argument. *)
Definition strip (s : pystr) : pystr := rstrip (lstrip s).

(** Truth value of a [str]: non-empty. *)
Definition truthy (s : pystr) : bool :=
  match s with [] => false | _ :: _ => true end.

Fixpoint startswith (p s : pystr) : bool :=
  match p, s with
  | [], _ => true
  | a :: p', b :: s' => (a =? b) && startswith p' s'
  | _ :: _, [] => false
  end.

Definition all_whitespace (s : pystr) : bool := forallb is_whitespace s.

Definition has_non_whitespace (s : pystr) : bool :=
  existsb (fun c => negb (is_whitespace c)) s.

(** No whitespace at either end. *)
Definition trimmed (s : pystr) : bool :=
  match s with
  | [] => true
  | c :: _ => negb (is_whitespace c) && negb (is_whitespace (last s c))
  end.

End PyStr.

Export PyStr.

(** ** Effects: printed lines, commands run, exceptions *)

Module Py.

(** What the script does to the outside world, in order. *)
Inductive event : Type :=
| Print (line : pystr)               (* one call of print *)
| Run (cmd : pystr) (timeout : N).   (* one call of subprocess.run, shell=True *)

(** Exceptions of the script.  [Exception_ msg] stands for any instance of
    [Exception] other than [TimeoutExpired], with [msg] its [str()];
    [SystemExit] derives from [BaseException] only. *)
Inductive exn : Type :=
| TimeoutExpired
| Exception_ (msg : pystr)
| SystemExit (code : Z).

Inductive result (A : Type) : Type :=
| Ok (a : A)
| Raise (e : exn).
Arguments Ok {A} a.
Arguments Raise {A} e.

(** A computation: how it ends, and the events it caused until then. *)
Definition IO (A : Type) : Type := (result A * list event)%type.

Definition ret {A} (a : A) : IO A := (Ok a, []).

Definition raise {A} (e : exn) : IO A := (Raise e, []).

Definition bind {A B} (m : IO A) (k : A -> IO B) : IO B :=
  match m with
  | (Ok a, t) => let (r, t') := k a in (r, t ++ t')
  | (Raise e, t) => (Raise e, t)
  end.

(** [try: body  except ...: handler].  The handler answers [None] for an
    exception that no [except] clause matches. *)
Definition try_except {A} (body : IO A) (handler : exn -> option (IO A)) : IO A :=
  match body with
  | (Ok a, t) => (Ok a, t)
  | (Raise e, t) =>
      match handler e with
      | Some h => let (r, t') := h in (r, t ++ t')
      | None => (Raise e, t)
      end
  end.

(** [print] on a standard output that takes every line; [Console.print]
    below is [print] on a stream that can refuse one. *)
Definition print (line : pystr) : IO unit := (Ok tt, [Print line]).

(** A [for] loop whose body updates a local variable of type [S]. *)
Fixpoint for_loop {A S} (xs : list A) (body : A -> S -> IO S) (s : S) : IO S :=
  match xs with
  | [] => ret s
  | x :: rest => bind (body x s) (for_loop rest body)
  end.

Definition outcome_of {A} (m : IO A) : result A := fst m.
Definition trace_of {A} (m : IO A) : list event := snd m.

(** The lines written to standard output, one per [print] call. *)
Fixpoint printed (t : list event) : list pystr :=
  match t with
  | [] => []
  | Print l :: r => l :: printed r
  | Run _ _ :: r => printed r
  end.

(** The commands handed to the shell, with their time budget in seconds. *)
Fixpoint commands (t : list event) : list (pystr * N) :=
  match t with
  | [] => []
  | Print _ :: r => commands r
  | Run c n :: r => (c, n) :: commands r
  end.

(** Exit status of [python3 extract-pins.py]: 0 when [main] returns,
    the code of [sys.exit], 1 for any other uncaught exception. *)
Definition exit_status (r : result unit) : Z :=
  match r with
  | Ok _ => 0%Z
  | Raise (SystemExit c) => c
  | Raise _ => 1%Z
  end.

End Py.
Export Py.

Notation "x <- m ;; k" := (bind m (fun x => k))
  (at level 61, m at next level, right associativity).
Notation "m ;; k" := (bind m (fun _ => k))
  (at level 61, right associativity).

(** ** Insertion-ordered dictionaries with string keys and values *)

Module Dict.

Definition dict := list (pystr * pystr).

(** [d[k] = v]: overwrite in place, or append a new entry at the end. *)
Fixpoint set (d : dict) (k v : pystr) : dict :=
  match d with
  | [] => [(k, v)]
  | (k', v') :: r => if eqb k' k then (k', v) :: r else (k', v') :: set r k v
  end.

Fixpoint get (d : dict) (k : pystr) : option pystr :=
  match d with
  | [] => None
  | (k', v') :: r => if eqb k' k then Some v' else get r k
  end.

(** [d.get(k, default)] *)
Definition get_default (d : dict) (k default : pystr) : pystr :=
  match get d k with Some v => v | None => default end.

Definition keys (d : dict) : list pystr := map fst d.
Definition items (d : dict) : list (pystr * pystr) := d.

End Dict.

(** ** The script *)

Section Script.

(** What [subprocess.run] does with a command: the shell finishes in time
    with a return code and the captured, decoded output; the time budget
    runs out; or the call fails with some other error ([OSError],
    [UnicodeDecodeError], ...) whose text is [msg].  An interrupt of the
    interpreter ([KeyboardInterrupt]) is not something the tool chain does
    and has no constructor here. *)
Inductive tool_behaviour : Type :=
| Completed (returncode : Z) (stdout : pystr)
| TimedOut
| Failed (msg : pystr).

Record CompletedProcess : Type :=
  { returncode : Z; stdout : pystr }.

(** The host, the network and the openssl tool chain. *)
Variable tool : pystr -> tool_behaviour.

Definition subprocess_run (cmd : pystr) (timeout : N) : IO CompletedProcess :=
  (match tool cmd with
   | Completed rc out => Ok {| returncode := rc; stdout := out |}
   | TimedOut => Raise TimeoutExpired
   | Failed msg => Raise (Exception_ msg)
   end, [Run cmd timeout]).

Definition ESC : pystr := [27].
Definition RED : pystr := ESC ++ lit "[0;31m".
Definition GREEN : pystr := ESC ++ lit "[0;32m".
Definition YELLOW : pystr := ESC ++ lit "[1;33m".
Definition BLUE : pystr := ESC ++ lit "[0;34m".
Definition NC : pystr := ESC ++ lit "[0m".

Definition CROSS : pystr := [10007].   (* U+2717 *)
Definition TICK : pystr := [10003].    (* U+2713 *)
Definition DQ : pystr := [34].         (* the double quote *)
Definition NL : pystr := [10].

Definition PROVIDERS : list (pystr * pystr) :=
  [ (lit "api.deepgram.com", lit "Deepgram (STT + TTS)");
    (lit "api.assemblyai.com", lit "AssemblyAI (STT)");
    (lit "api.groq.com", lit "Groq (STT)");
    (lit "api.elevenlabs.io", lit "ElevenLabs (TTS)");
    (lit "api.openai.com", lit "OpenAI (LLM)");
    (lit "api.anthropic.com", lit "Anthropic (LLM)") ].

Definition FAILED_TO_EXTRACT : pystr := lit "FAILED_TO_EXTRACT".

(** The f-string of [extract_pin]; a backslash at the end of a line of a
    triple-quoted literal joins it with the next one. *)
Definition openssl_cmd (domain : pystr) : pystr :=
  NL ++ lit "        echo | openssl s_client -connect " ++ domain
     ++ lit ":443 -servername " ++ domain ++ lit " 2>/dev/null | "
     ++ lit "        openssl x509 -pubkey -noout 2>/dev/null | "
     ++ lit "        openssl pkey -pubin -outform der 2>/dev/null | "
     ++ lit "        openssl dgst -sha256 -binary | "
     ++ lit "        openssl enc -base64" ++ NL
     ++ lit "        ".

Definition extract_pin (domain : pystr) : IO (option pystr) :=
  try_except
    (let cmd := openssl_cmd domain in
     result <- subprocess_run cmd 10 ;;
     if (returncode result =? 0)%Z && truthy (strip (stdout result)) then
       let pin_hash := strip (stdout result) in
       ret (Some (lit "sha256/" ++ pin_hash))
     else
       ret None)
    (fun e =>
       match e with
       | TimeoutExpired =>
           Some (print (RED ++ lit "  " ++ CROSS ++ lit " Timeout connecting to "
                            ++ domain ++ NC) ;;
                 ret None)
       | Exception_ msg =>
           Some (print (RED ++ lit "  " ++ CROSS ++ lit " Error: " ++ msg ++ NC) ;;
                 ret None)
       | SystemExit _ => None
       end).

Definition str_mul (s : pystr) (n : nat) : pystr := List.concat (repeat s n).

Definition rule : pystr := str_mul (lit "=") 50.

(** The body of the loop of [main] over [PROVIDERS], which fills [pins];
    [if pin:] holds for a string that is not empty. *)
Definition extraction_body (entry : pystr * pystr) (pins : Dict.dict)
  : IO Dict.dict :=
  let (domain, provider_name) := entry in
  let failure :=
    print (RED ++ lit "  " ++ CROSS ++ lit " Failed to extract pin" ++ NC) ;;
    ret (Dict.set pins domain FAILED_TO_EXTRACT) in
  print (YELLOW ++ lit "Extracting pin for " ++ provider_name ++ lit " ("
                ++ domain ++ lit ")..." ++ NC) ;;
  pin <- extract_pin domain ;;
  pins' <- match pin with
           | Some p =>
               if truthy p then
                 print (GREEN ++ lit "  " ++ TICK ++ lit " Pin: " ++ p ++ NC) ;;
                 ret (Dict.set pins domain p)
               else failure
           | None => failure
           end ;;
  print [] ;;
  ret pins'.

Definition extraction_phase (providers : list (pystr * pystr)) : IO Dict.dict :=
  for_loop providers extraction_body [].

(** [for domain, pin in pins.items(): ...] *)
Definition summary_body (item : pystr * pystr) (_ : unit) : IO unit :=
  let (domain, pin) := item in
  let status := if negb (eqb pin FAILED_TO_EXTRACT)
                then GREEN ++ TICK ++ NC
                else RED ++ CROSS ++ NC in
  print (status ++ lit " " ++ domain ++ lit ": " ++ pin).

Definition provider_comments : Dict.dict :=
  [ (lit "api.deepgram.com", lit "Deepgram (STT + TTS)");
    (lit "api.assemblyai.com", lit "AssemblyAI (STT)");
    (lit "api.groq.com", lit "Groq (STT)");
    (lit "api.elevenlabs.io", lit "ElevenLabs (TTS)");
    (lit "api.openai.com", lit "OpenAI (LLM)");
    (lit "api.anthropic.com", lit "Anthropic (LLM)") ].

(** [str(KeyError(k))] is [repr(k)]: the key in single quotes, for a key
    that needs no escaping. *)
Definition KeyError (k : pystr) : exn := Exception_ (lit "'" ++ k ++ lit "'").

(** [pins[domain]] *)
Definition getitem (d : Dict.dict) (k : pystr) : IO pystr :=
  match Dict.get d k with
  | Some v => ret v
  | None => raise (KeyError k)
  end.

(** [for domain in pins.keys(): ...] of the template. *)
Definition template_body (pins : Dict.dict) (domain : pystr) (_ : unit) : IO unit :=
  let comment := Dict.get_default provider_comments domain domain in
  pin <- getitem pins domain ;;
  print (lit "        // " ++ comment) ;;
  print (lit "        .add(" ++ DQ ++ domain ++ DQ ++ lit ", " ++ DQ ++ pin ++ DQ
             ++ lit ")") ;;
  print (lit "        .add(" ++ DQ ++ domain ++ DQ ++ lit ", " ++ DQ
             ++ lit "sha256/BACKUP_PIN_HERE" ++ DQ ++ lit ") // Add backup pin") ;;
  print [].

Definition summary_phase (pins : Dict.dict) : IO unit :=
  print rule ;;
  print (lit "Certificate Pins Summary") ;;
  print rule ;;
  print [] ;;
  for_loop (Dict.items pins) summary_body tt ;;
  print [].

Definition template_phase (pins : Dict.dict) : IO unit :=
  print rule ;;
  print (lit "Kotlin Code for CertificatePinning.kt") ;;
  print rule ;;
  print [] ;;
  print (lit "// Update app/src/main/kotlin/com/unamentis/data/remote/CertificatePinning.kt") ;;
  print (lit "// Replace the placeholder pins with these actual pins:") ;;
  print [] ;;
  print (lit "val pinner: CertificatePinner by lazy {") ;;
  print (lit "    CertificatePinner.Builder()") ;;
  for_loop (Dict.keys pins) (template_body pins) tt ;;
  print (lit "        .build()") ;;
  print (lit "}") ;;
  print [].

Definition notes_phase : IO unit :=
  print rule ;;
  print (lit "Important Notes") ;;
  print rule ;;
  print [] ;;
  print (lit "1. ALWAYS add at least 2 pins per domain (current + backup)") ;;
  print (lit "2. Get backup pins from provider documentation or cert transparency logs") ;;
  print (lit "3. Monitor certificate expiration dates") ;;
  print (lit "4. Set up alerts for certificate rotation") ;;
  print (lit "5. Update pins BEFORE old certificates expire") ;;
  print [] ;;
  print (lit "Certificate Transparency Logs:") ;;
  print (lit "  - https://crt.sh") ;;
  print (lit "  - https://transparencyreport.google.com/https/certificates") ;;
  print [] ;;
  print rule ;;
  print (lit "Done!") ;;
  print rule.

(** [[d for d, p in pins.items() if p == "FAILED_TO_EXTRACT"]] *)
Definition failures_of (pins : Dict.dict) : list pystr :=
  map fst (filter (fun item => eqb (snd item) FAILED_TO_EXTRACT) (Dict.items pins)).

Definition exit_phase (pins : Dict.dict) : IO unit :=
  let failures := failures_of pins in
  match failures with
  | _ :: _ =>
      print [] ;;
      print (RED ++ lit "WARNING: Failed to extract pins for:" ++ NC) ;;
      for_loop failures (fun domain _ => print (lit "  - " ++ domain)) tt ;;
      print [] ;;
      print (lit "Please check your network connection and try again.") ;;
      raise (SystemExit 1)
  | [] => ret tt
  end.

Definition main : IO unit :=
  print rule ;;
  print (lit "Certificate Pin Extractor for UnaMentis") ;;
  print rule ;;
  print [] ;;
  pins <- extraction_phase PROVIDERS ;;
  summary_phase pins ;;
  template_phase pins ;;
  notes_phase ;;
  exit_phase pins.

End Script.

(** ** Names for what a run computes and prints *)

Definition domains : list pystr := map fst PROVIDERS.

(** The mapping [pins] of [main] when its first loop is over. *)
Definition results (tool : pystr -> tool_behaviour) : Dict.dict :=
  match outcome_of (extraction_phase tool PROVIDERS) with
  | Ok pins => pins
  | Raise _ => []
  end.

(** [extract_pin] returned a pin that [if pin:] accepts. *)
Definition succeeds (tool : pystr -> tool_behaviour) (domain : pystr) : bool :=
  match outcome_of (extract_pin tool domain) with
  | Ok (Some p) => truthy p
  | _ => false
  end.

(** What [main] stores for a domain after calling [extract_pin]. *)
Definition recorded (tool : pystr -> tool_behaviour) (domain : pystr) : pystr :=
  match outcome_of (extract_pin tool domain) with
  | Ok (Some p) => if truthy p then p else FAILED_TO_EXTRACT
  | _ => FAILED_TO_EXTRACT
  end.

Definition failed_domains (tool : pystr -> tool_behaviour) : list pystr :=
  filter (fun d => negb (succeeds tool d)) domains.

Module Line.

Definition timeout (domain : pystr) : pystr :=
  RED ++ lit "  " ++ CROSS ++ lit " Timeout connecting to " ++ domain ++ NC.

Definition error (msg : pystr) : pystr :=
  RED ++ lit "  " ++ CROSS ++ lit " Error: " ++ msg ++ NC.

Definition extracting (domain provider_name : pystr) : pystr :=
  YELLOW ++ lit "Extracting pin for " ++ provider_name ++ lit " ("
         ++ domain ++ lit ")..." ++ NC.

Definition pin_found (pin : pystr) : pystr :=
  GREEN ++ lit "  " ++ TICK ++ lit " Pin: " ++ pin ++ NC.

Definition pin_failed : pystr :=
  RED ++ lit "  " ++ CROSS ++ lit " Failed to extract pin" ++ NC.

Definition summary (domain pin : pystr) : pystr :=
  (if eqb pin FAILED_TO_EXTRACT then RED ++ CROSS ++ NC else GREEN ++ TICK ++ NC)
    ++ lit " " ++ domain ++ lit ": " ++ pin.

Definition comment (label : pystr) : pystr := lit "        // " ++ label.

Definition add_prefix : pystr := lit "        .add(".

Definition add (domain pin : pystr) : pystr :=
  add_prefix ++ DQ ++ domain ++ DQ ++ lit ", " ++ DQ ++ pin ++ DQ ++ lit ")".

Definition backup (domain : pystr) : pystr :=
  add_prefix ++ DQ ++ domain ++ DQ ++ lit ", " ++ DQ
             ++ lit "sha256/BACKUP_PIN_HERE" ++ DQ ++ lit ") // Add backup pin".

Definition warning : pystr :=
  RED ++ lit "WARNING: Failed to extract pins for:" ++ NC.

Definition failed_item (domain : pystr) : pystr := lit "  - " ++ domain.

Definition check_network : pystr :=
  lit "Please check your network connection and try again.".

End Line.

(** The four lines of the template for one provider. *)
Definition template_entry (pin_of : pystr -> pystr) (entry : pystr * pystr)
  : list pystr :=
  [ Line.comment (snd entry);
    Line.add (fst entry) (pin_of (fst entry));
    Line.backup (fst entry);
    [] ].

Definition template_preamble : list pystr :=
  [ rule; lit "Kotlin Code for CertificatePinning.kt"; rule; [];
    lit "// Update app/src/main/kotlin/com/unamentis/data/remote/CertificatePinning.kt";
    lit "// Replace the placeholder pins with these actual pins:";
    [];
    lit "val pinner: CertificatePinner by lazy {";
    lit "    CertificatePinner.Builder()" ].

Definition template_closing : list pystr :=
  [ lit "        .build()"; lit "}"; [] ].

(** The warning of the last phase of [main]. *)
Definition warning_block (failures : list pystr) : list pystr :=
  [ []; Line.warning ] ++ map Line.failed_item failures
    ++ [ []; Line.check_network ].

(** The events of one round of the first loop of [main]. *)
Definition extraction_round (tool : pystr -> tool_behaviour)
  (entry : pystr * pystr) : list event :=
  Print (Line.extracting (fst entry) (snd entry))
    :: trace_of (extract_pin tool (fst entry))
    ++ [ Print (if succeeds tool (fst entry)
                then Line.pin_found (recorded tool (fst entry))
                else Line.pin_failed);
         Print [] ].

(** Everything [main] does before its last phase. *)
Definition report (tool : pystr -> tool_behaviour) : IO unit :=
  print rule ;;
  print (lit "Certificate Pin Extractor for UnaMentis") ;;
  print rule ;;
  print [] ;;
  pins <- extraction_phase tool PROVIDERS ;;
  summary_phase pins ;;
  template_phase pins ;;
  notes_phase.

Definition banner_lines : list pystr :=
  [ rule; lit "Certificate Pin Extractor for UnaMentis"; rule; [] ].

Definition summary_lines (pins : Dict.dict) : list pystr :=
  [ rule; lit "Certificate Pins Summary"; rule; [] ]
    ++ map (fun e => Line.summary (fst e) (snd e)) pins ++ [ [] ].

Definition template_lines (pin_of : pystr -> pystr) : list pystr :=
  template_preamble ++ flat_map (template_entry pin_of) PROVIDERS
    ++ template_closing.

Definition notes_lines : list pystr := printed (trace_of notes_phase).

(** The failures of the tool chain: no answer in time, an error of the
    call, a return code other than 0, output that [strip] leaves empty
    (no output at all, or whitespace only). *)
Definition tool_fails (b : tool_behaviour) : bool :=
  match b with
  | Completed rc out => negb (rc =? 0)%Z || negb (truthy (strip out))
  | TimedOut => true
  | Failed _ => true
  end.

(** The two [.add] lines of the template for one provider. *)
Definition add_lines (pin_of : pystr -> pystr) (entry : pystr * pystr)
  : list pystr :=
  [ Line.add (fst entry) (pin_of (fst entry)); Line.backup (fst entry) ].

(** Mocks of the tool chain. *)
Definition mock_always (b : tool_behaviour) : pystr -> tool_behaviour :=
  fun _ => b.

Definition mock_except (domain : pystr) (b other : tool_behaviour)
  : pystr -> tool_behaviour :=
  fun cmd => if eqb cmd (openssl_cmd domain) then b else other.

(** A tool chain that behaves as [assign] says, domain by domain. *)
Definition mock_of (assign : pystr -> tool_behaviour) : pystr -> tool_behaviour :=
  fun cmd =>
    match find (fun d => eqb cmd (openssl_cmd d)) domains with
    | Some d => assign d
    | None => Failed (lit "unexpected command")
    end.

(** base64 of the SHA-256 digest of the empty input, as a test vector. *)
Definition sample_digest : pystr :=
  lit "47DEQpj8HBSa+/TImW+5JCeuQeRkm5NMpJWZG3hSuFU=".

Definition sample_pin : pystr := lit "sha256/" ++ sample_digest.

Definition openai : pystr := lit "api.openai.com".
Definition groq : pystr := lit "api.groq.com".

(** ** The script on a standard output that can fail

    [print] raises when the stream cannot take the line: a character that
    its encoding lacks ([UnicodeEncodeError]), a closed stream or pipe
    ([ValueError], [OSError]).  The definitions of this module are those of
    the script above with this [print]; an error of [print] is an instance
    of [Exception], and nothing in the script catches it outside a [try]
    body. *)

Module Console.

Section Model.

(** What the stream does with a line: [None] when it is written, [Some msg]
    when [print] raises an error whose text is [msg]. *)
Variable stdout_error : pystr -> option pystr.

Variable tool : pystr -> tool_behaviour.

Definition print (line : pystr) : IO unit :=
  match stdout_error line with
  | None => (Ok tt, [Print line])
  | Some msg => (Raise (Exception_ msg), [])
  end.

Definition extract_pin (domain : pystr) : IO (option pystr) :=
  try_except
    (let cmd := openssl_cmd domain in
     result <- subprocess_run tool cmd 10 ;;
     if (returncode result =? 0)%Z && truthy (strip (stdout result)) then
       let pin_hash := strip (stdout result) in
       ret (Some (lit "sha256/" ++ pin_hash))
     else
       ret None)
    (fun e =>
       match e with
       | TimeoutExpired =>
           Some (print (RED ++ lit "  " ++ CROSS ++ lit " Timeout connecting to "
                            ++ domain ++ NC) ;;
                 ret None)
       | Exception_ msg =>
           Some (print (RED ++ lit "  " ++ CROSS ++ lit " Error: " ++ msg ++ NC) ;;
                 ret None)
       | SystemExit _ => None
       end).

(** The body of the loop of [main] over [PROVIDERS], which fills [pins];
    [if pin:] holds for a string that is not empty. *)
Definition extraction_body (entry : pystr * pystr) (pins : Dict.dict)
  : IO Dict.dict :=
  let (domain, provider_name) := entry in
  let failure :=
    print (RED ++ lit "  " ++ CROSS ++ lit " Failed to extract pin" ++ NC) ;;
    ret (Dict.set pins domain FAILED_TO_EXTRACT) in
  print (YELLOW ++ lit "Extracting pin for " ++ provider_name ++ lit " ("
                ++ domain ++ lit ")..." ++ NC) ;;
  pin <- extract_pin domain ;;
  pins' <- match pin with
           | Some p =>
               if truthy p then
                 print (GREEN ++ lit "  " ++ TICK ++ lit " Pin: " ++ p ++ NC) ;;
                 ret (Dict.set pins domain p)
               else failure
           | None => failure
           end ;;
  print [] ;;
  ret pins'.

Definition extraction_phase (providers : list (pystr * pystr)) : IO Dict.dict :=
  for_loop providers extraction_body [].

(** [for domain, pin in pins.items(): ...] *)
Definition summary_body (item : pystr * pystr) (_ : unit) : IO unit :=
  let (domain, pin) := item in
  let status := if negb (eqb pin FAILED_TO_EXTRACT)
                then GREEN ++ TICK ++ NC
                else RED ++ CROSS ++ NC in
  print (status ++ lit " " ++ domain ++ lit ": " ++ pin).

(** [for domain in pins.keys(): ...] of the template. *)
Definition template_body (pins : Dict.dict) (domain : pystr) (_ : unit) : IO unit :=
  let comment := Dict.get_default provider_comments domain domain in
  pin <- getitem pins domain ;;
  print (lit "        // " ++ comment) ;;
  print (lit "        .add(" ++ DQ ++ domain ++ DQ ++ lit ", " ++ DQ ++ pin ++ DQ
             ++ lit ")") ;;
  print (lit "        .add(" ++ DQ ++ domain ++ DQ ++ lit ", " ++ DQ
             ++ lit "sha256/BACKUP_PIN_HERE" ++ DQ ++ lit ") // Add backup pin") ;;
  print [].

Definition summary_phase (pins : Dict.dict) : IO unit :=
  print rule ;;
  print (lit "Certificate Pins Summary") ;;
  print rule ;;
  print [] ;;
  for_loop (Dict.items pins) summary_body tt ;;
  print [].

Definition template_phase (pins : Dict.dict) : IO unit :=
  print rule ;;
  print (lit "Kotlin Code for CertificatePinning.kt") ;;
  print rule ;;
  print [] ;;
  print (lit "// Update app/src/main/kotlin/com/unamentis/data/remote/CertificatePinning.kt") ;;
  print (lit "// Replace the placeholder pins with these actual pins:") ;;
  print [] ;;
  print (lit "val pinner: CertificatePinner by lazy {") ;;
  print (lit "    CertificatePinner.Builder()") ;;
  for_loop (Dict.keys pins) (template_body pins) tt ;;
  print (lit "        .build()") ;;
  print (lit "}") ;;
  print [].

Definition notes_phase : IO unit :=
  print rule ;;
  print (lit "Important Notes") ;;
  print rule ;;
  print [] ;;
  print (lit "1. ALWAYS add at least 2 pins per domain (current + backup)") ;;
  print (lit "2. Get backup pins from provider documentation or cert transparency logs") ;;
  print (lit "3. Monitor certificate expiration dates") ;;
  print (lit "4. Set up alerts for certificate rotation") ;;
  print (lit "5. Update pins BEFORE old certificates expire") ;;
  print [] ;;
  print (lit "Certificate Transparency Logs:") ;;
  print (lit "  - https://crt.sh") ;;
  print (lit "  - https://transparencyreport.google.com/https/certificates") ;;
  print [] ;;
  print rule ;;
  print (lit "Done!") ;;
  print rule.

Definition exit_phase (pins : Dict.dict) : IO unit :=
  let failures := failures_of pins in
  match failures with
  | _ :: _ =>
      print [] ;;
      print (RED ++ lit "WARNING: Failed to extract pins for:" ++ NC) ;;
      for_loop failures (fun domain _ => print (lit "  - " ++ domain)) tt ;;
      print [] ;;
      print (lit "Please check your network connection and try again.") ;;
      raise (SystemExit 1)
  | [] => ret tt
  end.

Definition main : IO unit :=
  print rule ;;
  print (lit "Certificate Pin Extractor for UnaMentis") ;;
  print rule ;;
  print [] ;;
  pins <- extraction_phase PROVIDERS ;;
  summary_phase pins ;;
  template_phase pins ;;
  notes_phase ;;
  exit_phase pins.

End Model.

(** A stream that takes every line. *)
Definition accepts_all : pystr -> option pystr := fun _ => None.

(** A stream whose encoding is ASCII. *)
Definition ascii_only : pystr -> option pystr :=
  fun line =>
    if forallb (fun c => c <? 128) line then None
    else Some (lit "'ascii' codec can't encode character").

(** The line that [extract_pin] prints, if any. *)
Definition diagnostic (tool : pystr -> tool_behaviour) (domain : pystr)
  : option pystr :=
  match tool (openssl_cmd domain) with
  | Completed _ _ => None
  | TimedOut => Some (Line.timeout domain)
  | Failed msg => Some (Line.error msg)
  end.

(** An outcome that is a return or an error of [print]. *)
Definition print_error_only {A} (stdout_error : pystr -> option pystr)
  (r : result A) : Prop :=
  match r with
  | Ok _ => True
  | Raise (Exception_ msg) => exists line, stdout_error line = Some msg
  | Raise _ => False
  end.

End Console.

(** ** Facts about strings *)

Module PyStrFacts.

Lemma eqb_eq (a b : pystr) : eqb a b = true <-> a = b.
Proof.
  unfold eqb. destruct (list_eq_dec N.eq_dec a b); split; congruence.
Qed.

Lemma eqb_neq (a b : pystr) : eqb a b = false <-> a <> b.
Proof.
  unfold eqb. destruct (list_eq_dec N.eq_dec a b); split; congruence.
Qed.

Lemma eqb_refl (a : pystr) : eqb a a = true.
Proof. now apply eqb_eq. Qed.

Lemma startswith_app (p s : pystr) : startswith p (p ++ s) = true.
Proof.
  induction p as [|a p IH]; simpl; [reflexivity|].
  now rewrite N.eqb_refl, IH.
Qed.

(** *** What [lstrip], [rstrip] and [strip] compute *)

Lemma lstrip_split (s : pystr) :
  exists l, s = l ++ lstrip s /\ all_whitespace l = true.
Proof.
  induction s as [|c r [l [Hl Hw]]]; simpl.
  - now exists [].
  - destruct (is_whitespace c) eqn:Hc.
    + exists (c :: l). simpl. rewrite Hc, Hw. split; [now f_equal|reflexivity].
    + now exists [].
Qed.

Lemma lstrip_head (s : pystr) (c : N) (r : pystr) :
  lstrip s = c :: r -> is_whitespace c = false.
Proof.
  induction s as [|a s IH]; simpl; [discriminate|].
  destruct (is_whitespace a) eqn:Ha; [exact IH|].
  intros H. now injection H as -> _.
Qed.

Lemma lstrip_all_whitespace (s : pystr) :
  lstrip s = [] <-> all_whitespace s = true.
Proof.
  induction s as [|a s IH]; simpl; [tauto|].
  destruct (is_whitespace a); simpl; [exact IH|].
  split; discriminate.
Qed.

Lemma lstrip_fixed (s : pystr) (c : N) :
  is_whitespace c = false -> lstrip (c :: s) = c :: s.
Proof. intros H. simpl. now rewrite H. Qed.

Lemma all_whitespace_app (a b : pystr) :
  all_whitespace (a ++ b) = all_whitespace a && all_whitespace b.
Proof. apply forallb_app. Qed.

Lemma all_whitespace_rev (a : pystr) :
  all_whitespace (rev a) = all_whitespace a.
Proof.
  induction a as [|c a IH]; simpl; [reflexivity|].
  rewrite all_whitespace_app, IH. simpl.
  rewrite andb_true_r. apply andb_comm.
Qed.

Lemma rstrip_split (s : pystr) :
  exists r, s = rstrip s ++ r /\ all_whitespace r = true.
Proof.
  unfold rstrip.
  destruct (lstrip_split (rev s)) as [l [Hl Hw]].
  exists (rev l). split.
  - rewrite <- rev_app_distr, <- Hl. now rewrite rev_involutive.
  - now rewrite all_whitespace_rev.
Qed.

Lemma rstrip_all_whitespace (s : pystr) :
  rstrip s = [] <-> all_whitespace s = true.
Proof.
  unfold rstrip. rewrite <- all_whitespace_rev, <- lstrip_all_whitespace.
  split; intros H.
  - apply (f_equal (@rev N)) in H. now rewrite rev_involutive in H.
  - now rewrite H.
Qed.

(** [rstrip] leaves the first character of a string that does not start
    with whitespace where it is. *)
Lemma rstrip_cons (c : N) (s : pystr) :
  is_whitespace c = false -> exists t, rstrip (c :: s) = c :: t.
Proof.
  intros Hc. unfold rstrip. simpl.
  assert (G : forall u, exists t, rev (lstrip (u ++ [c])) = c :: t).
  { induction u as [|a u IH]; simpl.
    - rewrite Hc. now exists [].
    - destruct (is_whitespace a); [exact IH|].
      simpl. rewrite rev_app_distr. simpl. now eexists. }
  apply G.
Qed.

Lemma rstrip_last (s : pystr) (d : N) :
  rstrip s <> [] -> is_whitespace (last (rstrip s) d) = false.
Proof.
  unfold rstrip. intros H.
  destruct (lstrip (rev s)) as [|c r] eqn:E; [now elim H|].
  simpl. rewrite last_last. eapply lstrip_head, E.
Qed.

Lemma has_non_whitespace_negb (s : pystr) :
  has_non_whitespace s = negb (all_whitespace s).
Proof.
  induction s as [|c s IH]; simpl; [reflexivity|].
  rewrite IH. now destruct (is_whitespace c).
Qed.

Lemma lstrip_skip (l s : pystr) :
  all_whitespace l = true -> lstrip (l ++ s) = lstrip s.
Proof.
  induction l as [|c l IH]; simpl; [reflexivity|].
  destruct (is_whitespace c); [exact IH|discriminate].
Qed.

Lemma rstrip_skip (s r : pystr) :
  all_whitespace r = true -> rstrip (s ++ r) = rstrip s.
Proof.
  intros H. unfold rstrip. rewrite rev_app_distr, lstrip_skip; [reflexivity|].
  now rewrite all_whitespace_rev.
Qed.

Lemma rstrip_fixed (s : pystr) (c : N) :
  is_whitespace c = false -> rstrip (s ++ [c]) = s ++ [c].
Proof.
  intros H. unfold rstrip. rewrite rev_app_distr. simpl. rewrite H.
  simpl. now rewrite rev_involutive.
Qed.

Lemma truthy_nonempty (s : pystr) : truthy s = true <-> s <> [].
Proof. destruct s; simpl; split; congruence. Qed.

Lemma strip_empty (s : pystr) : strip s = [] <-> all_whitespace s = true.
Proof.
  unfold strip. rewrite rstrip_all_whitespace.
  destruct (lstrip_split s) as [l [Hl Hw]].
  rewrite Hl at 2. rewrite all_whitespace_app, Hw. reflexivity.
Qed.

(** [strip] leaves something exactly when there is a character that is
    not whitespace. *)
Lemma truthy_strip (s : pystr) : truthy (strip s) = has_non_whitespace s.
Proof.
  rewrite has_non_whitespace_negb.
  destruct (all_whitespace s) eqn:E.
  - apply strip_empty in E. now rewrite E.
  - destruct (strip s) eqn:S; [|reflexivity].
    apply strip_empty in S. congruence.
Qed.

(** [strip] removes whitespace only, and only at the two ends. *)
Lemma strip_split (s : pystr) :
  exists l r, s = l ++ strip s ++ r
              /\ all_whitespace l = true /\ all_whitespace r = true.
Proof.
  destruct (lstrip_split s) as [l [Hl Hw]].
  destruct (rstrip_split (lstrip s)) as [r [Hr Hv]].
  exists l, r. unfold strip. now rewrite <- Hr.
Qed.

(** ... and all of it. *)
Lemma strip_trimmed (s : pystr) : trimmed (strip s) = true.
Proof.
  unfold strip. destruct (lstrip s) as [|c r] eqn:E; [reflexivity|].
  pose proof (lstrip_head _ _ _ E) as Hc.
  destruct (rstrip_cons c r Hc) as [t Ht].
  assert (Hl : is_whitespace (last (rstrip (c :: r)) c) = false).
  { apply rstrip_last. rewrite Ht. discriminate. }
  rewrite Ht in *. unfold trimmed. now rewrite Hc, Hl.
Qed.

Lemma strip_trimmed_id (p : pystr) : trimmed p = true -> strip p = p.
Proof.
  destruct p as [|c p]; [reflexivity|].
  unfold trimmed. intros H. apply andb_prop in H as [H1 H2].
  apply negb_true_iff in H1, H2.
  unfold strip. rewrite lstrip_fixed by exact H1.
  assert (Hne : c :: p <> []) by discriminate.
  rewrite (app_removelast_last c Hne) at 1 2.
  rewrite rstrip_fixed by exact H2. reflexivity.
Qed.

(** Whitespace around a text that has none at its ends is what [strip]
    takes away. *)
Lemma strip_app (l p r : pystr) :
  all_whitespace l = true -> all_whitespace r = true -> trimmed p = true ->
  strip (l ++ p ++ r) = p.
Proof.
  intros Hl Hr Hp. destruct p as [|c p].
  - apply strip_empty. simpl. now rewrite all_whitespace_app, Hl, Hr.
  - unfold strip. rewrite lstrip_skip by exact Hl.
    pose proof Hp as Hp'. unfold trimmed in Hp'.
    apply andb_prop in Hp' as [H1 _]. apply negb_true_iff in H1.
    change ((c :: p) ++ r) with (c :: (p ++ r)).
    rewrite lstrip_fixed by exact H1.
    change (c :: (p ++ r)) with ((c :: p) ++ r).
    rewrite rstrip_skip by exact Hr.
    pose proof (strip_trimmed_id (c :: p) Hp) as S.
    unfold strip in S. now rewrite lstrip_fixed in S by exact H1.
Qed.

End PyStrFacts.

(** ** Facts about computations and dictionaries *)

Module PyFacts.

Import PyStrFacts.

Lemma app_same_length {A} (a b x y : list A) :
  List.length a = List.length b -> a ++ x = b ++ y -> a = b.
Proof.
  revert b. induction a as [|c a IH]; intros [|e b] L H;
    try discriminate; [reflexivity|].
  injection H as -> H. f_equal. apply IH; [now injection L|exact H].
Qed.

Lemma last_default {A} (b : list A) (d d' : A) :
  b <> [] -> last b d = last b d'.
Proof.
  induction b as [|x b IH]; [congruence|]. intros _.
  destruct b as [|y b]; [reflexivity|].
  cbn [last] in *. apply IH. discriminate.
Qed.

Lemma last_app_nonempty {A} (a b : list A) (d d' : A) :
  b <> [] -> last (a ++ b) d = last b d'.
Proof.
  intros H. induction a as [|x a IH]; [now apply last_default|].
  cbn [app]. rewrite <- IH.
  destruct (a ++ b) eqn:Q; [|reflexivity].
  apply app_eq_nil in Q. tauto.
Qed.

Lemma printed_app (a b : list event) : printed (a ++ b) = printed a ++ printed b.
Proof.
  induction a as [|[l|c n] a IH]; simpl; [reflexivity| |]; now rewrite IH.
Qed.

Lemma commands_app (a b : list event) :
  commands (a ++ b) = commands a ++ commands b.
Proof.
  induction a as [|[l|c n] a IH]; simpl; [reflexivity| |]; now rewrite IH.
Qed.

Lemma printed_prints (ls : list pystr) : printed (map Print ls) = ls.
Proof. induction ls as [|l ls IH]; simpl; [reflexivity|now rewrite IH]. Qed.

Lemma commands_prints (ls : list pystr) : commands (map Print ls) = [].
Proof. induction ls as [|l ls IH]; simpl; [reflexivity|exact IH]. Qed.

Lemma bind_ok {A B} (a : A) (t : list event) (k : A -> IO B) :
  bind (Ok a, t) k = (fst (k a), t ++ snd (k a)).
Proof. simpl. now destruct (k a). Qed.

Lemma bind_print {B} (l : pystr) (k : unit -> IO B) :
  bind (print l) k = (fst (k tt), Print l :: snd (k tt)).
Proof. unfold print. now rewrite bind_ok. Qed.

(** A loop that only prints one line per element. *)
Lemma for_loop_print {A} (f : A -> pystr) (xs : list A) :
  for_loop xs (fun x (_ : unit) => print (f x)) tt
  = (Ok tt, map (fun x => Print (f x)) xs).
Proof.
  induction xs as [|x xs IH]; simpl; [reflexivity|].
  now rewrite IH.
Qed.

Lemma set_fresh (d : Dict.dict) (k v : pystr) :
  ~ In k (Dict.keys d) -> Dict.set d k v = d ++ [(k, v)].
Proof.
  induction d as [|[k' v'] d IH]; simpl; [reflexivity|].
  intros H. destruct (eqb k' k) eqn:E.
  - apply eqb_eq in E. tauto.
  - rewrite IH; [reflexivity|tauto].
Qed.

(** Storing one value per key of a list without repetitions appends the
    entries in the order of the list. *)
Lemma fill_fresh (f : pystr -> pystr) (ps : list (pystr * pystr)) :
  forall d : Dict.dict,
    NoDup (Dict.keys d ++ map fst ps) ->
    fold_left (fun acc e => Dict.set acc (fst e) (f (fst e))) ps d
    = d ++ map (fun e => (fst e, f (fst e))) ps.
Proof.
  induction ps as [|[k l] ps IH]; intros d H; simpl.
  - now rewrite app_nil_r.
  - assert (Hk : ~ In k (Dict.keys d)).
    { apply NoDup_remove_2 in H. intros G. apply H, in_or_app. now left. }
    rewrite set_fresh by exact Hk.
    rewrite IH.
    + now rewrite <- app_assoc.
    + unfold Dict.keys in *. rewrite map_app. simpl.
      rewrite <- app_assoc. exact H.
Qed.

Lemma get_map (f : pystr -> pystr) (ps : list (pystr * pystr)) (k : pystr) :
  In k (map fst ps) ->
  Dict.get (map (fun e => (fst e, f (fst e))) ps) k = Some (f k).
Proof.
  induction ps as [|[k' l] ps IH]; simpl; [tauto|].
  intros H. destruct (eqb k' k) eqn:E.
  - apply eqb_eq in E. now subst.
  - apply IH. destruct H as [H|H]; [|exact H].
    subst. now rewrite eqb_refl in E.
Qed.

Lemma keys_map (f : pystr -> pystr) (ps : list (pystr * pystr)) :
  Dict.keys (map (fun e => (fst e, f (fst e))) ps) = map fst ps.
Proof.
  unfold Dict.keys. rewrite map_map. reflexivity.
Qed.

End PyFacts.

(** ** Facts about the script *)

Module ScriptFacts.

Import PyStrFacts PyFacts.

Section WithTool.

Variable tool : pystr -> tool_behaviour.

(** [extract_pin], case by case on what the tool chain does. *)
Lemma extract_pin_eq (d : pystr) :
  extract_pin tool d =
  match tool (openssl_cmd d) with
  | Completed rc out =>
      (Ok (if (rc =? 0)%Z && truthy (strip out)
           then Some (lit "sha256/" ++ strip out) else None),
       [Run (openssl_cmd d) 10])
  | TimedOut => (Ok None, [Run (openssl_cmd d) 10; Print (Line.timeout d)])
  | Failed msg => (Ok None, [Run (openssl_cmd d) 10; Print (Line.error msg)])
  end.
Proof.
  unfold extract_pin, subprocess_run.
  destruct (tool (openssl_cmd d)) as [rc out| |msg];
    cbn [bind try_except returncode stdout]; [|reflexivity|reflexivity].
  destruct ((rc =? 0)%Z && truthy (strip out)); reflexivity.
Qed.

Lemma succeeds_eq (d : pystr) :
  succeeds tool d =
  match tool (openssl_cmd d) with
  | Completed rc out => (rc =? 0)%Z && has_non_whitespace out
  | _ => false
  end.
Proof.
  unfold succeeds. rewrite extract_pin_eq.
  destruct (tool (openssl_cmd d)) as [rc out| |msg]; try reflexivity.
  unfold outcome_of. cbn [fst]. rewrite <- truthy_strip.
  destruct ((rc =? 0)%Z && truthy (strip out)); reflexivity.
Qed.

Lemma recorded_eq (d : pystr) :
  recorded tool d =
  match tool (openssl_cmd d) with
  | Completed rc out =>
      if (rc =? 0)%Z && has_non_whitespace out
      then lit "sha256/" ++ strip out else FAILED_TO_EXTRACT
  | _ => FAILED_TO_EXTRACT
  end.
Proof.
  unfold recorded. rewrite extract_pin_eq.
  destruct (tool (openssl_cmd d)) as [rc out| |msg]; try reflexivity.
  unfold outcome_of. cbn [fst]. rewrite <- truthy_strip.
  destruct ((rc =? 0)%Z && truthy (strip out)); reflexivity.
Qed.

Lemma recorded_failed (d : pystr) :
  succeeds tool d = false -> recorded tool d = FAILED_TO_EXTRACT.
Proof.
  rewrite succeeds_eq, recorded_eq.
  destruct (tool (openssl_cmd d)) as [rc out| |msg]; try reflexivity.
  now intros ->.
Qed.

Lemma recorded_prefix (d : pystr) :
  succeeds tool d = true -> startswith (lit "sha256/") (recorded tool d) = true.
Proof.
  rewrite succeeds_eq, recorded_eq.
  destruct (tool (openssl_cmd d)) as [rc out| |msg]; try discriminate.
  intros ->. apply startswith_app.
Qed.

Lemma prefix_not_sentinel (p : pystr) :
  startswith (lit "sha256/") p = true -> eqb p FAILED_TO_EXTRACT = false.
Proof.
  intros H. apply eqb_neq. intros ->. discriminate H.
Qed.

(** The stored value is the sentinel exactly for a failed extraction. *)
Lemma recorded_sentinel (d : pystr) :
  eqb (recorded tool d) FAILED_TO_EXTRACT = negb (succeeds tool d).
Proof.
  destruct (succeeds tool d) eqn:E.
  - now apply prefix_not_sentinel, recorded_prefix.
  - rewrite recorded_failed by exact E. apply eqb_refl.
Qed.

(** One round of the first loop. *)
Lemma extraction_body_eq (entry : pystr * pystr) (pins : Dict.dict) :
  extraction_body tool entry pins
  = (Ok (Dict.set pins (fst entry) (recorded tool (fst entry))),
     extraction_round tool entry).
Proof.
  destruct entry as [d name].
  unfold extraction_body, extraction_round, recorded, succeeds, trace_of, outcome_of.
  cbn [fst snd]. rewrite bind_print.
  rewrite extract_pin_eq.
  destruct (tool (openssl_cmd d)) as [rc out| |msg]; try reflexivity.
  destruct ((rc =? 0)%Z && truthy (strip out)); try reflexivity.
Qed.

(** The first loop, for any list of providers and any starting mapping. *)
Lemma extraction_loop_eq (ps : list (pystr * pystr)) :
  forall pins : Dict.dict,
    for_loop ps (extraction_body tool) pins
    = (Ok (fold_left (fun acc e => Dict.set acc (fst e) (recorded tool (fst e)))
                     ps pins),
       flat_map (extraction_round tool) ps).
Proof.
  induction ps as [|e ps IH]; intros pins; [reflexivity|].
  cbn [for_loop fold_left flat_map].
  rewrite extraction_body_eq, bind_ok, IH. reflexivity.
Qed.

Lemma domains_nodup : NoDup domains.
Proof.
  repeat constructor; cbn; intuition discriminate.
Qed.

Lemma extraction_phase_eq :
  extraction_phase tool PROVIDERS
  = (Ok (map (fun e => (fst e, recorded tool (fst e))) PROVIDERS),
     flat_map (extraction_round tool) PROVIDERS).
Proof.
  unfold extraction_phase. rewrite extraction_loop_eq.
  rewrite fill_fresh; [reflexivity|exact domains_nodup].
Qed.

Lemma results_eq :
  results tool = map (fun e => (fst e, recorded tool (fst e))) PROVIDERS.
Proof. unfold results. now rewrite extraction_phase_eq. Qed.

Lemma results_keys : Dict.keys (results tool) = domains.
Proof. rewrite results_eq. apply keys_map. Qed.

Lemma results_get (d : pystr) :
  In d domains -> Dict.get (results tool) d = Some (recorded tool d).
Proof. rewrite results_eq. apply get_map. Qed.

Lemma results_in (d p : pystr) :
  In (d, p) (results tool) -> In d domains /\ p = recorded tool d.
Proof.
  rewrite results_eq. intros H. apply in_map_iff in H as [e [He Hin]].
  injection He as <- <-. split; [|reflexivity].
  now apply in_map.
Qed.

(** The failures that the last phase finds in the mapping. *)
Lemma failures_eq : failures_of (results tool) = failed_domains tool.
Proof.
  unfold failures_of, failed_domains, domains, Dict.items.
  rewrite results_eq.
  induction PROVIDERS as [|e ps IH]; [reflexivity|].
  cbn [map filter fst snd]. rewrite recorded_sentinel.
  destruct (succeeds tool (fst e)); cbn [negb map fst]; now rewrite IH.
Qed.

(** The second loop prints one line per entry. *)
Lemma summary_phase_eq (pins : Dict.dict) :
  summary_phase pins
  = (Ok tt,
     map Print (summary_lines pins)).
Proof.
  unfold summary_phase.
  assert (L : for_loop (Dict.items pins) summary_body tt
              = (Ok tt, map (fun e => Print (Line.summary (fst e) (snd e))) pins)).
  { unfold Dict.items. induction pins as [|[d p] pins IH]; [reflexivity|].
    cbn [for_loop map]. unfold summary_body at 1, Line.summary at 1.
    cbn [fst snd]. rewrite bind_print, IH. cbn [fst snd].
    destruct (eqb p FAILED_TO_EXTRACT); reflexivity. }
  cbn [bind print ret fst snd app]. rewrite L.
  unfold summary_lines. cbn [map app]. rewrite map_app, map_map. reflexivity.
Qed.

(** The third loop, over keys that the mapping holds. *)
Lemma template_loop_eq (pins : Dict.dict) (f : pystr -> pystr) (ks : list pystr) :
  (forall k, In k ks -> Dict.get pins k = Some (f k)) ->
  for_loop ks (template_body pins) tt
  = (Ok tt,
     map Print
       (flat_map (fun k => template_entry f
                             (k, Dict.get_default provider_comments k k)) ks)).
Proof.
  induction ks as [|k ks IH]; intros H; [reflexivity|].
  cbn [for_loop flat_map]. unfold template_body at 1, getitem.
  rewrite (H k) by now left.
  cbn [bind print ret fst snd app].
  rewrite IH by (intros k' Hk'; apply H; now right).
  reflexivity.
Qed.

Lemma template_phase_eq (pins : Dict.dict) (f : pystr -> pystr) :
  (forall k, In k (Dict.keys pins) -> Dict.get pins k = Some (f k)) ->
  template_phase pins
  = (Ok tt,
     map Print
       (template_preamble
          ++ flat_map (fun k => template_entry f
                                  (k, Dict.get_default provider_comments k k))
                      (Dict.keys pins)
          ++ template_closing)).
Proof.
  intros H. unfold template_phase, template_preamble, template_closing.
  cbn [bind print ret fst snd app].
  rewrite (template_loop_eq pins f _ H).
  cbn [map app]. rewrite map_app. reflexivity.
Qed.

(** The labels of the template are those of [PROVIDERS]. *)
Lemma template_labels (f : pystr -> pystr) :
  flat_map (fun k => template_entry f
                       (k, Dict.get_default provider_comments k k)) domains
  = flat_map (template_entry f) PROVIDERS.
Proof. reflexivity. Qed.

Lemma notes_phase_ok : outcome_of notes_phase = Ok tt.
Proof. reflexivity. Qed.

Lemma notes_phase_commands : commands (trace_of notes_phase) = [].
Proof. reflexivity. Qed.

Lemma exit_phase_eq (pins : Dict.dict) :
  exit_phase pins
  = match failures_of pins with
    | [] => (Ok tt, [])
    | _ :: _ => (Raise (SystemExit 1), map Print (warning_block (failures_of pins)))
    end.
Proof.
  unfold exit_phase. destruct (failures_of pins) as [|d ds]; [reflexivity|].
  pose proof (for_loop_print Line.failed_item (d :: ds)) as L.
  set (loop := for_loop (d :: ds) _ tt) in *.
  cbn [bind print ret raise fst snd app]. rewrite L.
  unfold warning_block. cbn [app map]. rewrite map_app, map_map. reflexivity.
Qed.

Lemma notes_phase_eq : notes_phase = (Ok tt, map Print notes_lines).
Proof. reflexivity. Qed.

Lemma template_results_eq :
  template_phase (results tool)
  = (Ok tt, map Print (template_lines (recorded tool))).
Proof.
  rewrite (template_phase_eq (results tool) (recorded tool)).
  - rewrite results_keys, template_labels. reflexivity.
  - rewrite results_keys. apply results_get.
Qed.

(** [main] up to its last phase. *)
Lemma report_eq :
  report tool
  = (Ok tt,
     map Print banner_lines
       ++ flat_map (extraction_round tool) PROVIDERS
       ++ map Print (summary_lines (results tool)
                       ++ template_lines (recorded tool) ++ notes_lines)).
Proof.
  pose proof template_results_eq as T. pose proof extraction_phase_eq as E.
  rewrite results_eq in *.
  unfold report. cbn [bind print fst snd app]. rewrite E.
  cbn [bind]. rewrite summary_phase_eq.
  cbn [bind]. rewrite T.
  cbn [bind]. rewrite notes_phase_eq.
  cbn [bind fst snd]. unfold banner_lines. cbn [map app].
  rewrite !map_app. reflexivity.
Qed.

(** [main] is [report] followed by the last phase. *)
Lemma main_eq :
  main tool
  = (outcome_of (exit_phase (results tool)),
     trace_of (report tool) ++ trace_of (exit_phase (results tool))).
Proof.
  rewrite report_eq.
  pose proof template_results_eq as T. pose proof extraction_phase_eq as E.
  rewrite results_eq in *.
  unfold main. cbn [bind print fst snd app]. rewrite E.
  cbn [bind]. rewrite summary_phase_eq.
  cbn [bind]. rewrite T.
  cbn [bind]. rewrite notes_phase_eq.
  cbn [bind].
  destruct (exit_phase _) as [r t]. unfold outcome_of, trace_of.
  unfold banner_lines. cbn [map app fst snd]. rewrite !map_app, <- !app_assoc.
  reflexivity.
Qed.

Lemma extract_pin_commands (d : pystr) :
  commands (trace_of (extract_pin tool d)) = [(openssl_cmd d, 10)].
Proof.
  rewrite extract_pin_eq. now destruct (tool (openssl_cmd d)).
Qed.

Lemma extraction_commands (ps : list (pystr * pystr)) :
  commands (flat_map (extraction_round tool) ps)
  = map (fun e => (openssl_cmd (fst e), 10)) ps.
Proof.
  induction ps as [|e ps IH]; [reflexivity|].
  cbn [flat_map map]. rewrite commands_app, IH.
  unfold extraction_round. cbn [commands]. rewrite commands_app.
  rewrite extract_pin_commands. reflexivity.
Qed.

Lemma main_outcome :
  outcome_of (main tool)
  = match failed_domains tool with
    | [] => Ok tt
    | _ :: _ => Raise (SystemExit 1)
    end.
Proof.
  rewrite main_eq. unfold outcome_of. cbn [fst].
  rewrite exit_phase_eq, failures_eq. now destruct (failed_domains tool).
Qed.

Lemma main_printed :
  printed (trace_of (main tool))
  = printed (trace_of (report tool))
      ++ match failed_domains tool with
         | [] => []
         | _ :: _ => warning_block (failed_domains tool)
         end.
Proof.
  rewrite main_eq. unfold trace_of at 1. cbn [snd].
  rewrite printed_app. f_equal.
  rewrite exit_phase_eq, failures_eq.
  destruct (failed_domains tool); [reflexivity|].
  unfold trace_of. cbn [snd]. apply printed_prints.
Qed.

End WithTool.

End ScriptFacts.

(** ** Facts about the script on a standard output that can fail *)

Module ConsoleFacts.

Import PyStrFacts PyFacts.

(** On a stream that takes every line the script is the one above. *)
Lemma extract_pin_accepts_all (tool : pystr -> tool_behaviour) (d : pystr) :
  Console.extract_pin Console.accepts_all tool d = extract_pin tool d.
Proof. reflexivity. Qed.

Lemma main_accepts_all (tool : pystr -> tool_behaviour) :
  Console.main Console.accepts_all tool = main tool.
Proof. reflexivity. Qed.

Section WithStream.

Variable stdout_error : pystr -> option pystr.
Variable tool : pystr -> tool_behaviour.

(** [extract_pin], case by case on the tool chain and on the stream. *)
Lemma console_extract_pin_eq (d : pystr) :
  Console.extract_pin stdout_error tool d =
  match tool (openssl_cmd d) with
  | Completed rc out =>
      (Ok (if (rc =? 0)%Z && truthy (strip out)
           then Some (lit "sha256/" ++ strip out) else None),
       [Run (openssl_cmd d) 10])
  | TimedOut =>
      match stdout_error (Line.timeout d) with
      | None => (Ok None, [Run (openssl_cmd d) 10; Print (Line.timeout d)])
      | Some msg => (Raise (Exception_ msg), [Run (openssl_cmd d) 10])
      end
  | Failed text =>
      match stdout_error (Line.error text) with
      | None => (Ok None, [Run (openssl_cmd d) 10; Print (Line.error text)])
      | Some msg => (Raise (Exception_ msg), [Run (openssl_cmd d) 10])
      end
  end.
Proof.
  unfold Console.extract_pin, subprocess_run.
  destruct (tool (openssl_cmd d)) as [rc out| |text];
    cbn [bind try_except returncode stdout].
  - destruct ((rc =? 0)%Z && truthy (strip out)); reflexivity.
  - unfold Console.print. fold (Line.timeout d).
    destruct (stdout_error (Line.timeout d)); reflexivity.
  - unfold Console.print. fold (Line.error text).
    destruct (stdout_error (Line.error text)); reflexivity.
Qed.

Lemma benign_print (line : pystr) :
  Console.print_error_only stdout_error (outcome_of (Console.print stdout_error line)).
Proof.
  unfold Console.print. destruct (stdout_error line) eqn:E; cbn; eauto.
Qed.

Lemma benign_ret {A} (a : A) : Console.print_error_only stdout_error (outcome_of (ret a)).
Proof. exact I. Qed.

Lemma benign_bind {A B} (m : IO A) (k : A -> IO B) :
  Console.print_error_only stdout_error (outcome_of m) ->
  (forall a, Console.print_error_only stdout_error (outcome_of (k a))) ->
  Console.print_error_only stdout_error (outcome_of (bind m k)).
Proof.
  destruct m as [[a|e] t]; cbn; intros Hm Hk; [|exact Hm].
  specialize (Hk a). now destruct (k a).
Qed.

Lemma benign_for_loop {A S} (body : A -> S -> IO S) (xs : list A) :
  (forall x, In x xs -> forall s, Console.print_error_only stdout_error (outcome_of (body x s))) ->
  forall s, Console.print_error_only stdout_error (outcome_of (for_loop xs body s)).
Proof.
  induction xs as [|x xs IH]; intros H s; [exact I|].
  cbn [for_loop]. apply benign_bind.
  - apply H. now left.
  - apply IH. intros y Hy. apply H. now right.
Qed.

Lemma benign_extract_pin (d : pystr) :
  Console.print_error_only stdout_error (outcome_of (Console.extract_pin stdout_error tool d)).
Proof.
  rewrite console_extract_pin_eq.
  destruct (tool (openssl_cmd d)) as [rc out| |text]; [exact I| |].
  - destruct (stdout_error (Line.timeout d)) eqn:E; cbn; eauto.
  - destruct (stdout_error (Line.error text)) eqn:E; cbn; eauto.
Qed.

Ltac benign_step :=
  first [ apply benign_print | apply benign_ret | apply benign_extract_pin
        | apply benign_bind; [|intros ?] ].

Lemma benign_extraction_body (e : pystr * pystr) (pins : Dict.dict) :
  Console.print_error_only stdout_error (outcome_of (Console.extraction_body stdout_error tool e pins)).
Proof.
  destruct e as [d name]. unfold Console.extraction_body. cbv zeta.
  apply benign_bind; [apply benign_print|intros _].
  apply benign_bind; [apply benign_extract_pin|intros pin].
  apply benign_bind; [|intros pins'; repeat benign_step].
  destruct pin as [p|]; [destruct (truthy p)|]; repeat benign_step.
Qed.

Lemma benign_extraction_phase (ps : list (pystr * pystr)) :
  Console.print_error_only stdout_error (outcome_of (Console.extraction_phase stdout_error tool ps)).
Proof.
  unfold Console.extraction_phase. apply benign_for_loop.
  intros e _ s. apply benign_extraction_body.
Qed.

Lemma benign_summary_phase (pins : Dict.dict) :
  Console.print_error_only stdout_error (outcome_of (Console.summary_phase stdout_error pins)).
Proof.
  unfold Console.summary_phase.
  do 4 (apply benign_bind; [apply benign_print|intros _]).
  apply benign_bind; [|intros _; apply benign_print].
  apply benign_for_loop. intros [d p] _ s. apply benign_print.
Qed.

(** [pins[domain]] finds every key of [pins]. *)
Lemma getitem_of_key (pins : Dict.dict) (k : pystr) :
  In k (Dict.keys pins) -> exists v, getitem pins k = ret v.
Proof.
  unfold getitem. induction pins as [|[a b] pins IH]; [intros []|].
  cbn [Dict.keys map fst Dict.get]. intros H.
  destruct (eqb a k) eqn:E; [now eexists|].
  apply IH. destruct H as [H|H]; [|exact H].
  subst. now rewrite eqb_refl in E.
Qed.

Lemma benign_template_phase (pins : Dict.dict) :
  Console.print_error_only stdout_error (outcome_of (Console.template_phase stdout_error pins)).
Proof.
  unfold Console.template_phase.
  do 9 (apply benign_bind; [apply benign_print|intros _]).
  apply benign_bind; [|intros _; repeat benign_step].
  apply benign_for_loop. intros k Hk s.
  unfold Console.template_body.
  destruct (getitem_of_key pins k Hk) as [v ->].
  repeat benign_step.
Qed.

Lemma benign_notes_phase :
  Console.print_error_only stdout_error (outcome_of (Console.notes_phase stdout_error)).
Proof. unfold Console.notes_phase. repeat benign_step. Qed.

End WithStream.

End ConsoleFacts.

(** ** The properties of the script *)

Module Claims.

Import PyStrFacts PyFacts ScriptFacts.

(** Supporting fact: [extract_pin] returns to its caller whatever the tool
    chain does, after one call of the shell. *)
Lemma extract_pin_returns (tool : pystr -> tool_behaviour) (d : pystr) :
  exists v, outcome_of (extract_pin tool d) = Ok v.
Proof.
  rewrite extract_pin_eq. destruct (tool (openssl_cmd d)); now eexists.
Qed.

(** Supporting fact: the command tells the domain. *)
Lemma openssl_cmd_inj (d1 d2 : pystr) :
  openssl_cmd d1 = openssl_cmd d2 -> d1 = d2.
Proof.
  intros H.
  assert (L : List.length d1 = List.length d2).
  { apply (f_equal (@List.length N)) in H. unfold openssl_cmd in H.
    rewrite !length_app in H. lia. }
  unfold openssl_cmd in H.
  apply app_inv_head in H. apply app_inv_head in H.
  exact (app_same_length _ _ _ _ L H).
Qed.

(** Supporting fact: every assignment of behaviours to the six domains is
    the behaviour of some tool chain. *)
Lemma mock_of_spec (assign : pystr -> tool_behaviour) (d : pystr) :
  In d domains -> mock_of assign (openssl_cmd d) = assign d.
Proof.
  intros H. unfold mock_of.
  generalize dependent domains. intros ds H.
  set (f := fun d' : pystr => eqb (openssl_cmd d) (openssl_cmd d')).
  destruct (find f ds) as [d'|] eqn:F.
  - apply find_some in F as [_ F]. unfold f in F.
    apply eqb_eq in F. apply openssl_cmd_inj in F. now subst.
  - pose proof (find_none f ds F d H) as G. unfold f in G.
    now rewrite eqb_refl in G.
Qed.

(** C1 (as amended).  When the tool chain exits with status 0 and its output
    holds a character that is not whitespace, [extract_pin] returns "sha256/"
    followed by the output with the whitespace at its two ends removed, after
    one call of the shell; so when the output is the base64 digest with
    whitespace around it (the newline that the encoder prints), the pin is
    "sha256/" followed by the digest. *)
Theorem C1_pin_is_prefix_and_stripped_output
  (tool : pystr -> tool_behaviour) (d out : pystr) :
  tool (openssl_cmd d) = Completed 0 out ->
  has_non_whitespace out = true ->
  extract_pin tool d
  = (Ok (Some (lit "sha256/" ++ strip out)), [Run (openssl_cmd d) 10])
  /\ forall l digest r,
       out = l ++ digest ++ r ->
       all_whitespace l = true -> all_whitespace r = true ->
       trimmed digest = true ->
       outcome_of (extract_pin tool d) = Ok (Some (lit "sha256/" ++ digest)).
Proof.
  intros H Hne.
  assert (E : extract_pin tool d
              = (Ok (Some (lit "sha256/" ++ strip out)), [Run (openssl_cmd d) 10])).
  { rewrite extract_pin_eq, H, truthy_strip, Hne. reflexivity. }
  split; [exact E|].
  intros l digest r -> Hl Hr Ht.
  rewrite E. unfold outcome_of. cbn [fst].
  now rewrite strip_app.
Qed.

(** The pin of the test vector, from a tool chain that prints the digest
    and a newline. *)
Lemma C1_known_digest_round_trip :
  outcome_of (extract_pin (mock_always (Completed 0 (sample_digest ++ NL))) openai)
  = Ok (Some sample_pin).
Proof.
  apply (proj2 (C1_pin_is_prefix_and_stripped_output
                  (mock_always (Completed 0 (sample_digest ++ NL)))
                  openai (sample_digest ++ NL) eq_refl eq_refl)
               [] sample_digest NL);
    reflexivity.
Defined.

(** The claim as written fails: the tool chain exits with status 0 and
    prints the digest and a newline, the output is not empty, and the pin is
    not "sha256/" followed by that output; and output of one blank is not
    empty either, yet no pin is returned. *)
Lemma C1_output_is_not_appended_verbatim :
  mock_always (Completed 0 (sample_digest ++ NL)) (openssl_cmd openai)
  = Completed 0 (sample_digest ++ NL)
  /\ sample_digest ++ NL <> []
  /\ outcome_of (extract_pin (mock_always (Completed 0 (sample_digest ++ NL))) openai)
     = Ok (Some (lit "sha256/" ++ sample_digest))
  /\ outcome_of (extract_pin (mock_always (Completed 0 (sample_digest ++ NL))) openai)
     <> Ok (Some (lit "sha256/" ++ (sample_digest ++ NL)))
  /\ lit " " <> []
  /\ outcome_of (extract_pin (mock_always (Completed 0 (lit " "))) openai)
     = Ok None.
Proof.
  repeat split; try reflexivity; discriminate.
Qed.

(** C2 (as amended).  When the tool chain runs out of time, fails with
    an error, exits with a status other than 0 or prints nothing (or
    whitespace only), [extract_pin] returns [None] to its caller and no
    exception leaves it, unless the [print] of its diagnostic line raises:
    that error is raised inside an [except] clause, is not caught and leaves
    [extract_pin].  A failure with a status other than 0 or with empty
    output prints nothing and always gives [None].  When [extract_pin]
    returned [None] and the lines of the caller are written, the loop of
    [main] stores the sentinel "FAILED_TO_EXTRACT" for the domain. *)
Theorem C2_failure_is_none_unless_print_raises
  (stdout_error : pystr -> option pystr) (tool : pystr -> tool_behaviour)
  (d name : pystr) (pins : Dict.dict) :
  tool_fails (tool (openssl_cmd d)) = true ->
  match Console.diagnostic tool d with
  | None =>
      outcome_of (Console.extract_pin stdout_error tool d) = Ok None
  | Some line =>
      match stdout_error line with
      | None =>
          outcome_of (Console.extract_pin stdout_error tool d) = Ok None
      | Some msg =>
          outcome_of (Console.extract_pin stdout_error tool d)
          = Raise (Exception_ msg)
      end
  end
  /\ ((forall line, Console.diagnostic tool d = Some line ->
                    stdout_error line = None) ->
      outcome_of (Console.extract_pin stdout_error tool d) = Ok None
      /\ (forall e, outcome_of (Console.extract_pin stdout_error tool d)
                    <> Raise e)
      /\ (stdout_error (Line.extracting d name) = None ->
          stdout_error Line.pin_failed = None ->
          stdout_error [] = None ->
          outcome_of (Console.extraction_body stdout_error tool (d, name) pins)
          = Ok (Dict.set pins d FAILED_TO_EXTRACT))).
Proof.
  intros H.
  assert (M : match Console.diagnostic tool d with
              | None =>
                  outcome_of (Console.extract_pin stdout_error tool d) = Ok None
              | Some line =>
                  match stdout_error line with
                  | None =>
                      outcome_of (Console.extract_pin stdout_error tool d)
                      = Ok None
                  | Some msg =>
                      outcome_of (Console.extract_pin stdout_error tool d)
                      = Raise (Exception_ msg)
                  end
              end).
  { unfold Console.diagnostic. rewrite ConsoleFacts.console_extract_pin_eq.
    destruct (tool (openssl_cmd d)) as [rc out| |text].
    - unfold outcome_of. cbn [fst]. cbn [tool_fails] in H.
      destruct (rc =? 0)%Z; [|reflexivity].
      destruct (truthy (strip out)); [discriminate|reflexivity].
    - now destruct (stdout_error (Line.timeout d)).
    - now destruct (stdout_error (Line.error text)). }
  split; [exact M|].
  intros A.
  assert (E : outcome_of (Console.extract_pin stdout_error tool d) = Ok None).
  { destruct (Console.diagnostic tool d) as [line|]; [|exact M].
    now rewrite (A line eq_refl) in M. }
  split; [exact E|]. split.
  - intros e. rewrite E. discriminate.
  - intros P1 P2 P3. unfold Console.extraction_body. cbv zeta.
    unfold Console.print at 1. fold (Line.extracting d name). rewrite P1.
    destruct (Console.extract_pin stdout_error tool d) as [r t].
    unfold outcome_of in E. cbn [fst] in E. subst r.
    unfold Console.print. fold Line.pin_failed. rewrite P2, P3.
    reflexivity.
Qed.

(** A timeout on a stream that takes every line. *)
Lemma C2_timeout_is_recorded_as_sentinel :
  outcome_of (Console.extract_pin Console.accepts_all (mock_always TimedOut) groq)
  = Ok None
  /\ (forall e, outcome_of (Console.extract_pin Console.accepts_all
                              (mock_always TimedOut) groq)
                <> Raise e)
  /\ outcome_of (Console.extraction_body Console.accepts_all (mock_always TimedOut)
                   (groq, lit "Groq (STT)") [])
     = Ok [(groq, FAILED_TO_EXTRACT)].
Proof.
  destruct (proj2 (C2_failure_is_none_unless_print_raises Console.accepts_all
                     (mock_always TimedOut) groq (lit "Groq (STT)") [] eq_refl)
                  (fun _ _ => eq_refl))
    as [E [R B]].
  split; [exact E|]. split; [exact R|].
  exact (B eq_refl eq_refl eq_refl).
Defined.

(** The claim as written fails: the tool chain runs out of time, the stream
    cannot encode the cross of the timeout line, and the error of [print]
    leaves [extract_pin], which does not return [None]. *)
Lemma C2_print_error_leaves_the_extractor :
  tool_fails (mock_always TimedOut (openssl_cmd groq)) = true
  /\ Console.ascii_only (Line.timeout groq)
     = Some (lit "'ascii' codec can't encode character")
  /\ outcome_of (Console.extract_pin Console.ascii_only (mock_always TimedOut) groq)
     = Raise (Exception_ (lit "'ascii' codec can't encode character"))
  /\ outcome_of (Console.extract_pin Console.ascii_only (mock_always TimedOut) groq)
     <> Ok None.
Proof.
  repeat split; try reflexivity; discriminate.
Qed.

(** Supporting fact: an entry found by [Dict.get] is an entry. *)
Lemma get_some_in (pins : Dict.dict) (k v : pystr) :
  Dict.get pins k = Some v -> In (k, v) pins.
Proof.
  induction pins as [|[k' v'] pins IH]; cbn [Dict.get]; [discriminate|].
  destruct (eqb k' k) eqn:E.
  - apply eqb_eq in E. intros [= ->]. subst. now left.
  - intros H. right. now apply IH.
Qed.

(** C3.  The exit status is 0 exactly when every extraction succeeded and 1
    otherwise; the domains that the last phase warns about are exactly those
    whose stored result is the sentinel, in the order of the provider list;
    with no such domain [main] prints nothing after its report, and with one
    or more it prints the warning, one line per such domain, and exits with
    status 1. *)
Theorem C3_exit_status_and_warning (tool : pystr -> tool_behaviour) :
  (exit_status (outcome_of (main tool)) = 0%Z
   <-> forall d, In d domains -> succeeds tool d = true)
  /\ (forall d, In d (failures_of (results tool))
                <-> Dict.get (results tool) d = Some FAILED_TO_EXTRACT)
  /\ failures_of (results tool) = failed_domains tool
  /\ match failures_of (results tool) with
     | [] =>
         outcome_of (main tool) = Ok tt
         /\ exit_status (outcome_of (main tool)) = 0%Z
         /\ printed (trace_of (main tool)) = printed (trace_of (report tool))
     | failures =>
         outcome_of (main tool) = Raise (SystemExit 1)
         /\ exit_status (outcome_of (main tool)) = 1%Z
         /\ printed (trace_of (main tool))
            = printed (trace_of (report tool)) ++ warning_block failures
     end.
Proof.
  pose proof (main_outcome tool) as O. pose proof (main_printed tool) as P.
  pose proof (failures_eq tool) as F.
  split; [|split; [|split; [exact F|]]].
  - rewrite O. unfold failed_domains.
    destruct (filter _ domains) as [|x xs] eqn:E.
    + split; [|reflexivity]. intros _ d Hd.
      destruct (succeeds tool d) eqn:S; [reflexivity|].
      assert (G : In d (filter (fun d => negb (succeeds tool d)) domains)).
      { apply filter_In. now rewrite S. }
      rewrite E in G. destruct G.
    + split; [discriminate|]. intros H.
      assert (G : In x (filter (fun d => negb (succeeds tool d)) domains)).
      { rewrite E. now left. }
      apply filter_In in G as [G1 G2]. rewrite (H x G1) in G2. discriminate.
  - intros d. rewrite F. unfold failed_domains. rewrite filter_In. split.
    + intros [Hd S]. apply negb_true_iff in S.
      rewrite results_get by exact Hd. now rewrite recorded_failed.
    + intros G. apply get_some_in, results_in in G as [Hd G].
      split; [exact Hd|].
      rewrite <- recorded_sentinel, <- G. apply eqb_refl.
  - rewrite F. rewrite O, P.
    destruct (failed_domains tool); rewrite ?app_nil_r; now repeat split.
Qed.

(** Five extractions succeed, the one for groq runs out of time: exit
    status 1, and the warning names groq alone. *)
Lemma C3_one_timeout_exits_1 :
  failures_of (results (mock_except groq TimedOut (Completed 0 (sample_digest ++ NL))))
  = [groq]
  /\ exit_status
       (outcome_of (main (mock_except groq TimedOut (Completed 0 (sample_digest ++ NL)))))
     = 1%Z.
Proof.
  pose proof (C3_exit_status_and_warning
                (mock_except groq TimedOut (Completed 0 (sample_digest ++ NL))))
    as [_ [_ [F M]]].
  assert (E : failed_domains
                (mock_except groq TimedOut (Completed 0 (sample_digest ++ NL)))
              = [groq]) by reflexivity.
  rewrite F, E in *. split; [reflexivity|]. exact (proj1 (proj2 M)).
Defined.

(** C4.  The first loop of [main] always ends normally, and the mapping it
    leaves holds six entries, one per provider, keyed by the six domains in
    the order of the provider list; after the first [n] providers the
    mapping is the first [n] of these entries. *)
Theorem C4_one_entry_per_provider_in_order (tool : pystr -> tool_behaviour) :
  outcome_of (extraction_phase tool PROVIDERS) = Ok (results tool)
  /\ Dict.keys (results tool)
     = [ lit "api.deepgram.com"; lit "api.assemblyai.com"; lit "api.groq.com";
         lit "api.elevenlabs.io"; lit "api.openai.com"; lit "api.anthropic.com" ]
  /\ Dict.keys (results tool) = map fst PROVIDERS
  /\ List.length (results tool) = 6%nat
  /\ NoDup (Dict.keys (results tool))
  /\ forall n, outcome_of (extraction_phase tool (firstn n PROVIDERS))
               = Ok (firstn n (results tool)).
Proof.
  split; [|split; [|split; [|split; [|split]]]].
  - rewrite results_eq, extraction_phase_eq. reflexivity.
  - rewrite results_keys. reflexivity.
  - apply results_keys.
  - rewrite results_eq, length_map. reflexivity.
  - rewrite results_keys. apply domains_nodup.
  - intros n. unfold extraction_phase. rewrite extraction_loop_eq.
    unfold outcome_of. cbn [fst]. f_equal.
    rewrite fill_fresh.
    + rewrite results_eq, firstn_map. reflexivity.
    + cbn [Dict.keys map app]. rewrite <- firstn_map.
      pose proof domains_nodup as D. unfold domains in D.
      rewrite <- (firstn_skipn n (map fst PROVIDERS)) in D.
      now apply NoDup_app_remove_r in D.
Qed.

(** C5.  Whatever the extractions gave, the template phase ends normally and
    prints its preamble, then for each provider in order a comment with its
    label, one [.add] line with the domain and the stored result, one
    [.add] line with the backup placeholder and an empty line, then the
    closing lines; the [.add] lines of the phase are exactly these two per
    provider; and the line of a domain whose extraction failed holds the
    sentinel where the pin would be. *)
Theorem C5_template_lines (tool : pystr -> tool_behaviour) :
  template_phase (results tool)
  = (Ok tt,
     map Print (template_preamble
                  ++ flat_map (template_entry (recorded tool)) PROVIDERS
                  ++ template_closing))
  /\ filter (startswith Line.add_prefix)
            (printed (trace_of (template_phase (results tool))))
     = flat_map (add_lines (recorded tool)) PROVIDERS
  /\ List.length (filter (startswith Line.add_prefix)
                         (printed (trace_of (template_phase (results tool)))))
     = (2 * List.length PROVIDERS)%nat
  /\ forall d, In d domains -> succeeds tool d = false ->
               In (Line.add d FAILED_TO_EXTRACT)
                  (printed (trace_of (template_phase (results tool)))).
Proof.
  pose proof (template_results_eq tool) as T. unfold template_lines in T.
  assert (A : filter (startswith Line.add_prefix)
                     (printed (trace_of (template_phase (results tool))))
              = flat_map (add_lines (recorded tool)) PROVIDERS).
  { rewrite T. unfold trace_of. cbn [snd]. rewrite printed_prints.
    generalize (recorded tool). intros f. reflexivity. }
  split; [exact T|]. split; [exact A|]. split.
  - rewrite A. reflexivity.
  - intros d Hd S.
    assert (G : In (Line.add d FAILED_TO_EXTRACT)
                   (flat_map (add_lines (recorded tool)) PROVIDERS)).
    { apply in_flat_map. unfold domains in Hd.
      apply in_map_iff in Hd as [e [He Hin]]. exists e. split; [exact Hin|].
      unfold add_lines. rewrite He, (recorded_failed tool d S). now left. }
    rewrite <- A in G. now apply filter_In in G.
Qed.

Lemma C5_failed_entry_shows_sentinel :
  In (Line.add groq FAILED_TO_EXTRACT)
     (printed (trace_of (template_phase
        (results (mock_except groq TimedOut (Completed 0 (sample_digest ++ NL))))))).
Proof.
  apply (proj2 (proj2 (proj2 (C5_template_lines
           (mock_except groq TimedOut (Completed 0 (sample_digest ++ NL))))))).
  - unfold domains, groq. cbn. tauto.
  - reflexivity.
Defined.

(** Supporting fact: what is printed during the first loop is printed by
    [main]. *)
Lemma printed_by_extractor (tool : pystr -> tool_behaviour)
  (e : pystr * pystr) (line : pystr) :
  In e PROVIDERS ->
  In line (printed (trace_of (extract_pin tool (fst e)))) ->
  In line (printed (trace_of (main tool))).
Proof.
  intros He Hl. rewrite main_printed. apply in_or_app. left.
  rewrite report_eq. unfold trace_of at 1. cbn [snd].
  rewrite !printed_app. apply in_or_app. right. apply in_or_app. left.
  induction PROVIDERS as [|p ps IH]; [destruct He|].
  cbn [flat_map]. rewrite printed_app. apply in_or_app.
  destruct He as [->|He]; [left|right; now apply IH].
  unfold extraction_round. cbn [printed]. right.
  rewrite printed_app. apply in_or_app. now left.
Qed.

(** C6.  The first loop never stops early: [main] runs the shell once per
    provider, in the order of the list, with a budget of 10 seconds, whatever
    the earlier extractions gave.  The result stored for a domain is what
    its own extraction gave, so it is the same under any tool chain that
    behaves alike on the command of that domain.  A domain whose extraction
    runs out of time gets the sentinel and its timeout line is printed, while
    a domain whose extraction succeeds gets its pin. *)
Theorem C6_every_provider_is_attempted_once
  (tool : pystr -> tool_behaviour) :
  commands (trace_of (main tool)) = map (fun d => (openssl_cmd d, 10)) domains
  /\ (forall d, In d domains ->
        Dict.get (results tool) d = Some (recorded tool d))
  /\ (forall tool' d, In d domains ->
        tool' (openssl_cmd d) = tool (openssl_cmd d) ->
        Dict.get (results tool') d = Dict.get (results tool) d)
  /\ (forall d, In d domains -> tool (openssl_cmd d) = TimedOut ->
        Dict.get (results tool) d = Some FAILED_TO_EXTRACT
        /\ In (Line.timeout d) (printed (trace_of (main tool))))
  /\ (forall d out, In d domains ->
        tool (openssl_cmd d) = Completed 0 out ->
        has_non_whitespace out = true ->
        Dict.get (results tool) d = Some (lit "sha256/" ++ strip out)).
Proof.
  split; [|split; [|split; [|split]]].
  - rewrite main_eq. unfold trace_of at 1. cbn [snd].
    rewrite commands_app, report_eq. unfold trace_of at 1. cbn [snd].
    rewrite !commands_app, !commands_prints, extraction_commands.
    rewrite exit_phase_eq.
    assert (Z : commands (trace_of
                match failures_of (results tool) with
                | [] => (Ok tt, [])
                | _ :: _ =>
                    (@Raise unit (SystemExit 1),
                     map Print (warning_block (failures_of (results tool))))
                end) = []).
    { destruct (failures_of (results tool)); [reflexivity|].
      unfold trace_of. cbn [snd]. apply commands_prints. }
    rewrite Z. cbn [app]. rewrite !app_nil_r.
    unfold domains. now rewrite map_map.
  - intros d Hd. now apply results_get.
  - intros tool' d Hd H. rewrite !results_get by exact Hd.
    f_equal. rewrite !recorded_eq. now rewrite H.
  - intros d Hd H. split.
    + rewrite results_get by exact Hd. rewrite recorded_eq. now rewrite H.
    + unfold domains in Hd. apply in_map_iff in Hd as [e [<- He]].
      apply (printed_by_extractor tool e _ He).
      rewrite extract_pin_eq, H. unfold trace_of. cbn. now left.
  - intros d out Hd H Hne. rewrite results_get by exact Hd.
    rewrite recorded_eq. now rewrite H, Hne.
Qed.

(** One timeout among five successes. *)
Lemma C6_timeout_does_not_stop_the_others :
  Dict.get (results (mock_except groq TimedOut (Completed 0 (sample_digest ++ NL))))
           groq
  = Some FAILED_TO_EXTRACT
  /\ In (Line.timeout groq)
        (printed (trace_of
           (main (mock_except groq TimedOut (Completed 0 (sample_digest ++ NL))))))
  /\ Dict.get (results (mock_except groq TimedOut (Completed 0 (sample_digest ++ NL))))
              openai
     = Some (lit "sha256/" ++ strip (sample_digest ++ NL)).
Proof.
  pose proof (C6_every_provider_is_attempted_once
                (mock_except groq TimedOut (Completed 0 (sample_digest ++ NL))))
    as [_ [_ [_ [T S]]]].
  assert (G : In groq domains) by (unfold domains, groq; cbn; tauto).
  assert (O : In openai domains) by (unfold domains, openai; cbn; tauto).
  destruct (T groq G eq_refl) as [T1 T2].
  split; [exact T1|]. split; [exact T2|].
  exact (S openai (sample_digest ++ NL) O eq_refl eq_refl).
Defined.

(** C7.  [extract_pin] prints one line when the tool chain runs out of time
    and one line when the call fails with an error, and nothing when the
    tool chain completes, whatever its status and output; for a failed
    extraction it is the loop of [main] that prints the failure line. *)
Theorem C7_diagnostics_of_the_extractor
  (tool : pystr -> tool_behaviour) (d name : pystr) (pins : Dict.dict) :
  printed (trace_of (extract_pin tool d))
  = match tool (openssl_cmd d) with
    | Completed _ _ => []
    | TimedOut => [Line.timeout d]
    | Failed msg => [Line.error msg]
    end
  /\ printed (trace_of (extraction_body tool (d, name) pins))
     = Line.extracting d name
         :: printed (trace_of (extract_pin tool d))
         ++ [ if succeeds tool d then Line.pin_found (recorded tool d)
              else Line.pin_failed;
              [] ].
Proof.
  split.
  - rewrite extract_pin_eq. now destruct (tool (openssl_cmd d)).
  - rewrite extraction_body_eq. unfold trace_of at 1. cbn [snd].
    unfold extraction_round. cbn [printed fst snd].
    now rewrite printed_app.
Qed.

(** Supporting fact: the first loop asks the tool chain about the commands
    of its providers only. *)
Lemma extraction_loop_ext (tool1 tool2 : pystr -> tool_behaviour)
  (ps : list (pystr * pystr)) :
  (forall e, In e ps -> tool1 (openssl_cmd (fst e)) = tool2 (openssl_cmd (fst e))) ->
  forall pins,
    for_loop ps (extraction_body tool1) pins
    = for_loop ps (extraction_body tool2) pins.
Proof.
  induction ps as [|e ps IH]; intros H pins; [reflexivity|].
  cbn [for_loop].
  assert (B : forall s, extraction_body tool1 e s = extraction_body tool2 e s).
  { intros s. destruct e as [d name]. unfold extraction_body.
    assert (X : extract_pin tool1 d = extract_pin tool2 d).
    { rewrite !extract_pin_eq.
      pose proof (H (d, name) (or_introl eq_refl)) as G. cbn [fst] in G.
      now rewrite G. }
    now rewrite X. }
  rewrite B. destruct (extraction_body tool2 e pins) as [[s|x] t]; [|reflexivity].
  cbn [bind]. rewrite IH; [reflexivity|].
  intros e' He'. apply H. now right.
Qed.

(** C8.  Two runs against tool chains that behave alike on the commands of
    the six domains do the same: the same events in the same order, so the
    same printed lines, and the same exit status. *)
Theorem C8_runs_are_deterministic (tool1 tool2 : pystr -> tool_behaviour) :
  (forall d, In d domains -> tool1 (openssl_cmd d) = tool2 (openssl_cmd d)) ->
  main tool1 = main tool2
  /\ printed (trace_of (main tool1)) = printed (trace_of (main tool2))
  /\ exit_status (outcome_of (main tool1)) = exit_status (outcome_of (main tool2)).
Proof.
  intros H.
  assert (E : main tool1 = main tool2).
  { unfold main, extraction_phase.
    rewrite (extraction_loop_ext tool1 tool2 PROVIDERS); [reflexivity|].
    intros e He. apply H. unfold domains. now apply in_map. }
  now rewrite E.
Qed.

(** Two mocks that differ on a command that the script never runs. *)
Lemma C8_same_mock_same_run :
  main (mock_except [] (Failed []) (Completed 0 (sample_digest ++ NL)))
  = main (mock_always (Completed 0 (sample_digest ++ NL)))
  /\ printed (trace_of
       (main (mock_except [] (Failed []) (Completed 0 (sample_digest ++ NL)))))
     = printed (trace_of (main (mock_always (Completed 0 (sample_digest ++ NL)))))
  /\ exit_status (outcome_of
       (main (mock_except [] (Failed []) (Completed 0 (sample_digest ++ NL)))))
     = exit_status (outcome_of (main (mock_always (Completed 0 (sample_digest ++ NL))))).
Proof.
  apply C8_runs_are_deterministic.
  intros d Hd. unfold domains in Hd. cbn in Hd.
  repeat (destruct Hd as [<-|Hd]; [reflexivity|]). destruct Hd.
Defined.

(** C9.  For every entry of the mapping: after a successful extraction the
    stored value is the pin that [extract_pin] returned, it starts with
    "sha256/" and it is not the sentinel; after a failed one it is the
    sentinel.  So the comparison with the sentinel tells the two apart. *)
Theorem C9_sentinel_is_never_a_pin
  (tool : pystr -> tool_behaviour) (d p : pystr) :
  In (d, p) (results tool) ->
  match outcome_of (extract_pin tool d) with
  | Ok (Some q) =>
      p = q /\ startswith (lit "sha256/") p = true
      /\ p <> FAILED_TO_EXTRACT /\ eqb p FAILED_TO_EXTRACT = false
      /\ succeeds tool d = true
  | Ok None =>
      p = FAILED_TO_EXTRACT /\ eqb p FAILED_TO_EXTRACT = true
      /\ succeeds tool d = false
  | Raise _ => False
  end.
Proof.
  intros H. apply results_in in H as [_ ->].
  pose proof (recorded_sentinel tool d) as R.
  pose proof (recorded_prefix tool d) as P.
  unfold recorded, succeeds in *. rewrite extract_pin_eq in *.
  destruct (tool (openssl_cmd d)) as [rc out| |msg];
    unfold outcome_of in *; cbn [fst] in *; try now repeat split.
  destruct ((rc =? 0)%Z && truthy (strip out)); [|now repeat split].
  cbn [truthy app lit] in *.
  assert (T : truthy (lit "sha256/" ++ strip out) = true) by reflexivity.
  rewrite T in *. cbn [negb] in R.
  repeat split; auto. now apply eqb_neq.
Qed.

Lemma C9_entries_of_a_mixed_run :
  startswith (lit "sha256/") sample_pin = true
  /\ sample_pin <> FAILED_TO_EXTRACT.
Proof.
  pose proof (C9_sentinel_is_never_a_pin
                (mock_except groq TimedOut (Completed 0 (sample_digest ++ NL)))
                openai sample_pin) as H.
  assert (I : In (openai, sample_pin)
                 (results (mock_except groq TimedOut
                             (Completed 0 (sample_digest ++ NL))))).
  { cbn. tauto. }
  specialize (H I). cbn in H. tauto.
Defined.

(** C10.  When the tool chain exits with status 0, [extract_pin] returns a
    pin exactly when the output holds a character that is not whitespace;
    the pin is then "sha256/" followed by the output without the whitespace
    at its two ends, so it does not end with the newline of the tool chain;
    output of whitespace only gives [None], as empty output does. *)
Theorem C10_pin_is_the_stripped_output
  (tool : pystr -> tool_behaviour) (d out : pystr) :
  tool (openssl_cmd d) = Completed 0 out ->
  outcome_of (extract_pin tool d)
  = (if has_non_whitespace out
     then Ok (Some (lit "sha256/" ++ strip out)) else Ok None)
  /\ (has_non_whitespace out = true
      <-> exists p, outcome_of (extract_pin tool d) = Ok (Some p))
  /\ (exists l r, out = l ++ strip out ++ r
                  /\ all_whitespace l = true /\ all_whitespace r = true)
  /\ trimmed (strip out) = true
  /\ is_whitespace (last (lit "sha256/" ++ strip out) 0) = false
  /\ last (lit "sha256/" ++ strip out) 0 <> 10.
Proof.
  intros H.
  assert (E : outcome_of (extract_pin tool d)
              = (if has_non_whitespace out
                 then Ok (Some (lit "sha256/" ++ strip out)) else Ok None)).
  { rewrite extract_pin_eq, H, truthy_strip. unfold outcome_of. cbn [fst].
    now destruct (has_non_whitespace out). }
  assert (L : is_whitespace (last (lit "sha256/" ++ strip out) 0) = false).
  { pose proof (strip_trimmed out) as T.
    destruct (strip out) as [|c s] eqn:S; [reflexivity|].
    assert (X : last (lit "sha256/" ++ c :: s) 0 = last (c :: s) c)
      by (apply last_app_nonempty; discriminate).
    rewrite X. unfold trimmed in T. apply andb_prop in T as [_ T].
    now apply negb_true_iff in T. }
  split; [exact E|]. split; [|split; [apply strip_split|split; [apply strip_trimmed|]]].
  - rewrite E. destruct (has_non_whitespace out); split; intros G;
      try reflexivity; try discriminate; [now eexists|].
    destruct G as [p G]. discriminate.
  - split; [exact L|]. intros G. rewrite G in L. discriminate.
Qed.

Lemma C10_newline_is_stripped :
  outcome_of (extract_pin (mock_always (Completed 0 (sample_digest ++ NL))) groq)
  = Ok (Some (lit "sha256/" ++ strip (sample_digest ++ NL)))
  /\ last (lit "sha256/" ++ strip (sample_digest ++ NL)) 0 <> 10.
Proof.
  pose proof (C10_pin_is_the_stripped_output
                (mock_always (Completed 0 (sample_digest ++ NL)))
                groq (sample_digest ++ NL) eq_refl) as [E [_ [_ [_ [_ L]]]]].
  split; [exact E|exact L].
Defined.

End Claims.

(** ** Further properties of the script *)

Module Extras.

Import PyStrFacts PyFacts ScriptFacts.

(** *** Lookups and updates of the mapping *)

Lemma get_set_same (pins : Dict.dict) (k v : pystr) :
  Dict.get (Dict.set pins k v) k = Some v.
Proof.
  induction pins as [|[k' v'] pins IH]; cbn [Dict.set Dict.get].
  - now rewrite eqb_refl.
  - destruct (eqb k' k) eqn:E; cbn [Dict.get]; now rewrite E.
Qed.

Lemma get_set_other (pins : Dict.dict) (k v k' : pystr) :
  k' <> k -> Dict.get (Dict.set pins k v) k' = Dict.get pins k'.
Proof.
  intros H. induction pins as [|[a b] pins IH]; cbn [Dict.set Dict.get].
  - apply eqb_neq in H. destruct (eqb k k') eqn:E; [|reflexivity].
    apply eqb_eq in E. apply eqb_neq in H. congruence.
  - destruct (eqb a k) eqn:E; cbn [Dict.get].
    + apply eqb_eq in E. subst a.
      destruct (eqb k k') eqn:E'; [|reflexivity].
      apply eqb_eq in E'. congruence.
    + destruct (eqb a k'); [reflexivity|exact IH].
Qed.

Lemma keys_set_known (pins : Dict.dict) (k v : pystr) :
  In k (Dict.keys pins) -> Dict.keys (Dict.set pins k v) = Dict.keys pins.
Proof.
  induction pins as [|[a b] pins IH]; cbn [Dict.set Dict.keys map fst];
    [intros []|].
  intros H. destruct (eqb a k) eqn:E; cbn [map fst]; [reflexivity|].
  f_equal. apply IH. destruct H as [H|H]; [|exact H].
  subst. now rewrite eqb_refl in E.
Qed.

Lemma keys_set_new (pins : Dict.dict) (k v : pystr) :
  ~ In k (Dict.keys pins) -> Dict.keys (Dict.set pins k v) = Dict.keys pins ++ [k].
Proof.
  intros H. rewrite set_fresh by exact H.
  unfold Dict.keys. now rewrite map_app.
Qed.

Lemma get_of_entry (pins : Dict.dict) (k v : pystr) :
  NoDup (Dict.keys pins) -> In (k, v) pins -> Dict.get pins k = Some v.
Proof.
  induction pins as [|[a b] pins IH]; cbn [Dict.keys map fst Dict.get];
    [intros _ []|].
  intros N H. apply NoDup_cons_iff in N as [Na N].
  destruct H as [H|H].
  - injection H as -> ->. now rewrite eqb_refl.
  - destruct (eqb a k) eqn:E; [|now apply IH].
    apply eqb_eq in E. subst a. elim Na.
    change k with (fst (k, v)). now apply in_map.
Qed.

(** X1.  [main] ends in one of three ways only: it returns, it leaves
    through [sys.exit(1)], or it leaves with the error that one of its own
    [print] calls raised.  No other exception leaves it: the lookups
    [pins[domain]] of the template never raise [KeyError], and no error of
    the tool chain gets past [extract_pin].  On a standard output that takes
    every line only the first two remain. *)
Theorem X1_main_returns_exits_1_or_print_raises
  (stdout_error : pystr -> option pystr) (tool : pystr -> tool_behaviour) :
  (outcome_of (Console.main stdout_error tool) = Ok tt
   \/ outcome_of (Console.main stdout_error tool) = Raise (SystemExit 1)
   \/ exists line msg,
        stdout_error line = Some msg
        /\ outcome_of (Console.main stdout_error tool) = Raise (Exception_ msg))
  /\ (outcome_of (Console.main Console.accepts_all tool) = Ok tt
      \/ outcome_of (Console.main Console.accepts_all tool)
         = Raise (SystemExit 1)).
Proof.
  assert (G : forall (A : Type) (m : IO A) (k : A -> IO unit),
             Console.print_error_only stdout_error (outcome_of m) ->
             (forall a,
                 outcome_of (k a) = Ok tt
                 \/ outcome_of (k a) = Raise (SystemExit 1)
                 \/ exists line msg,
                      stdout_error line = Some msg
                      /\ outcome_of (k a) = Raise (Exception_ msg)) ->
             outcome_of (bind m k) = Ok tt
             \/ outcome_of (bind m k) = Raise (SystemExit 1)
             \/ exists line msg,
                  stdout_error line = Some msg
                  /\ outcome_of (bind m k) = Raise (Exception_ msg)).
  { intros A [[a|e] t] k Hm Hk; cbn in *.
    - specialize (Hk a). now destruct (k a).
    - destruct e as [|msg|c]; try contradiction.
      destruct Hm as [line Hl]. right. right. now exists line, msg. }
  split.
  - unfold Console.main.
    do 4 (apply G; [apply ConsoleFacts.benign_print|intros _]).
    apply G; [apply ConsoleFacts.benign_extraction_phase|intros pins].
    apply G; [apply ConsoleFacts.benign_summary_phase|intros _].
    apply G; [apply ConsoleFacts.benign_template_phase|intros _].
    apply G; [apply ConsoleFacts.benign_notes_phase|intros _].
    unfold Console.exit_phase.
    destruct (failures_of pins) as [|f fs]; [now left|].
    do 2 (apply G; [apply ConsoleFacts.benign_print|intros _]).
    apply G.
    { apply ConsoleFacts.benign_for_loop. intros x _ s.
      apply ConsoleFacts.benign_print. }
    intros _.
    do 2 (apply G; [apply ConsoleFacts.benign_print|intros _]).
    right. now left.
  - rewrite ConsoleFacts.main_accepts_all, main_outcome.
    destruct (failed_domains tool); [now left|now right].
Qed.

(** X2.  The summary prints its heading, then one line per provider in the
    order of the list, then an empty line.  The line of a domain shows the
    green tick exactly when its extraction succeeded and the red cross
    otherwise, then the domain and the stored result. *)
Theorem X2_summary_lines (tool : pystr -> tool_behaviour) :
  summary_phase (results tool)
  = (Ok tt,
     map Print
       ([ rule; lit "Certificate Pins Summary"; rule; [] ]
          ++ map (fun e =>
                    (if succeeds tool (fst e)
                     then GREEN ++ TICK ++ NC else RED ++ CROSS ++ NC)
                      ++ lit " " ++ fst e ++ lit ": " ++ recorded tool (fst e))
                 PROVIDERS
          ++ [ [] ])).
Proof.
  rewrite summary_phase_eq, results_eq. unfold summary_lines.
  rewrite map_map. do 4 f_equal. apply map_ext. intros e.
  unfold Line.summary. cbn [fst snd]. rewrite recorded_sentinel.
  now destruct (succeeds tool (fst e)).
Qed.

(** X3.  The whole run, event by event: the banner; for each provider in
    order its round (the progress line, the one call of the shell, the
    diagnostics of the extractor, the result line, an empty line); then the
    summary, the template, the notes and, after a failure, the warning.
    So every call of the shell comes before the first line of the summary,
    and the warning comes last. *)
Theorem X3_trace_of_a_run (tool : pystr -> tool_behaviour) :
  trace_of (main tool)
  = map Print banner_lines
      ++ flat_map (extraction_round tool) PROVIDERS
      ++ map Print (summary_lines (results tool)
                      ++ template_lines (recorded tool)
                      ++ notes_lines
                      ++ match failed_domains tool with
                         | [] => []
                         | _ :: _ => warning_block (failed_domains tool)
                         end).
Proof.
  rewrite main_eq. unfold trace_of at 1. cbn [snd].
  rewrite report_eq, exit_phase_eq, failures_eq.
  unfold trace_of. cbn [snd].
  rewrite <- !app_assoc. do 2 f_equal.
  destruct (failed_domains tool); cbn [snd].
  - now rewrite !app_nil_r.
  - rewrite <- map_app. now rewrite <- !app_assoc.
Qed.

(** X4.  One call of [extract_pin], for any domain string, calls the shell
    exactly once, with the command of that domain and a budget of 10
    seconds, before anything is printed; it never tries again, and it
    prints at most one line. *)
Theorem X4_one_attempt_per_call (tool : pystr -> tool_behaviour) (d : pystr) :
  exists diagnostics,
    trace_of (extract_pin tool d)
    = Run (openssl_cmd d) 10 :: map Print diagnostics
    /\ (List.length diagnostics <= 1)%nat
    /\ commands (trace_of (extract_pin tool d)) = [(openssl_cmd d, 10)].
Proof.
  rewrite extract_pin_eq.
  destruct (tool (openssl_cmd d)) as [rc out| |msg].
  - exists []. repeat split. cbn. lia.
  - exists [Line.timeout d]. repeat split. cbn. lia.
  - exists [Line.error msg]. repeat split. cbn. lia.
Qed.

(** X5.  A pin is returned only when the tool chain completed with status
    0: the pin is then "sha256/" followed by a hash part that is not empty
    and has no whitespace at its ends.  So [extract_pin] never returns the
    empty string or the bare prefix, and [if pin:] in [main] rejects no
    returned pin. *)
Theorem X5_returned_pin_has_a_hash
  (tool : pystr -> tool_behaviour) (d p : pystr) :
  outcome_of (extract_pin tool d) = Ok (Some p) ->
  exists out,
    tool (openssl_cmd d) = Completed 0 out
    /\ p = lit "sha256/" ++ strip out
    /\ strip out <> []
    /\ trimmed (strip out) = true
    /\ truthy p = true
    /\ p <> lit "sha256/".
Proof.
  rewrite extract_pin_eq.
  destruct (tool (openssl_cmd d)) as [rc out| |msg]; try discriminate.
  unfold outcome_of. cbn [fst].
  destruct (rc =? 0)%Z eqn:R; [|discriminate].
  destruct (truthy (strip out)) eqn:T; [|discriminate].
  cbn [andb]. intros [= <-]. apply Z.eqb_eq in R. subst rc.
  exists out. apply truthy_nonempty in T.
  repeat split; auto using strip_trimmed.
  intros G. apply T.
  apply (app_inv_head (lit "sha256/")). now rewrite app_nil_r.
Qed.

Lemma X5_pin_of_the_sample_digest :
  exists out,
    mock_always (Completed 0 (sample_digest ++ NL)) (openssl_cmd openai)
    = Completed 0 out
    /\ sample_pin = lit "sha256/" ++ strip out
    /\ strip out <> []
    /\ trimmed (strip out) = true
    /\ truthy sample_pin = true
    /\ sample_pin <> lit "sha256/".
Proof.
  exact (X5_returned_pin_has_a_hash
           (mock_always (Completed 0 (sample_digest ++ NL)))
           openai sample_pin eq_refl).
Defined.

(** X6.  Two domains get the same shell command only when they are the
    same domain: no two providers can be served by one command. *)
Theorem X6_command_identifies_the_domain (d1 d2 : pystr) :
  openssl_cmd d1 = openssl_cmd d2 <-> d1 = d2.
Proof.
  split; [|now intros ->].
  intros H.
  assert (L : List.length d1 = List.length d2).
  { apply (f_equal (@List.length N)) in H. unfold openssl_cmd in H.
    rewrite !length_app in H. lia. }
  unfold openssl_cmd in H.
  apply app_inv_head in H. apply app_inv_head in H.
  exact (app_same_length _ _ _ _ L H).
Qed.

(** X7.  For every mapping with distinct keys the template phase ends
    normally ([pins[domain]] finds every key that [pins.keys()] gives) and
    prints four lines per entry, in the order of the mapping; the comment
    of a domain that has no label in [provider_comments] is the domain
    itself. *)
Theorem X7_template_of_any_mapping (pins : Dict.dict) :
  NoDup (Dict.keys pins) ->
  template_phase pins
  = (Ok tt,
     map Print
       (template_preamble
          ++ flat_map (fun e =>
                         [ Line.comment
                             (match Dict.get provider_comments (fst e) with
                              | Some label => label
                              | None => fst e
                              end);
                           Line.add (fst e) (snd e);
                           Line.backup (fst e);
                           [] ])
                      pins
          ++ template_closing)).
Proof.
  intros N.
  set (f := fun k => match Dict.get pins k with Some v => v | None => [] end).
  rewrite (template_phase_eq pins f).
  - assert (E : forall ps : Dict.dict,
               (forall e, In e ps -> In e pins) ->
               flat_map (fun k => template_entry f
                           (k, Dict.get_default provider_comments k k))
                        (Dict.keys ps)
               = flat_map (fun e =>
                             [ Line.comment
                                 (match Dict.get provider_comments (fst e) with
                                  | Some label => label
                                  | None => fst e
                                  end);
                               Line.add (fst e) (snd e);
                               Line.backup (fst e);
                               [] ]) ps).
    { induction ps as [|[k v] ps IH]; intros Hin; [reflexivity|].
      cbn [Dict.keys map flat_map fst snd].
      unfold Dict.keys in IH. rewrite IH by (intros e He; apply Hin; now right).
      unfold template_entry, Dict.get_default, f. cbn [fst snd].
      rewrite (get_of_entry pins k v N) by (apply Hin; now left).
      reflexivity. }
    rewrite (E pins) by auto. reflexivity.
  - intros k Hk. unfold f. unfold Dict.keys in Hk.
    apply in_map_iff in Hk as [[k' v] [<- Hin]]. cbn [fst].
    now rewrite (get_of_entry pins k' v N Hin).
Qed.

Lemma X7_template_of_an_unlabelled_domain :
  template_phase [(lit "example.org", sample_pin)]
  = (Ok tt,
     map Print
       (template_preamble
          ++ [ Line.comment (lit "example.org");
               Line.add (lit "example.org") sample_pin;
               Line.backup (lit "example.org");
               [] ]
          ++ template_closing)).
Proof.
  apply (X7_template_of_any_mapping [(lit "example.org", sample_pin)]).
  repeat constructor. cbn. tauto.
Defined.

(** X8.  One round of the first loop, from any mapping: it ends normally,
    the new mapping holds the result of the round under its domain and
    what it held before under every other key; the entry of a domain that
    is already there is overwritten in place, and a new domain is appended
    at the end. *)
Theorem X8_round_updates_its_own_entry
  (tool : pystr -> tool_behaviour) (d name : pystr) (pins : Dict.dict) :
  exists pins',
    outcome_of (extraction_body tool (d, name) pins) = Ok pins'
    /\ Dict.get pins' d = Some (recorded tool d)
    /\ (forall k, k <> d -> Dict.get pins' k = Dict.get pins k)
    /\ (In d (Dict.keys pins) -> Dict.keys pins' = Dict.keys pins)
    /\ (~ In d (Dict.keys pins) -> Dict.keys pins' = Dict.keys pins ++ [d]).
Proof.
  exists (Dict.set pins d (recorded tool d)).
  rewrite extraction_body_eq. unfold outcome_of. cbn [fst].
  split; [reflexivity|]. split; [apply get_set_same|].
  split; [intros k Hk; now apply get_set_other|].
  split; [apply keys_set_known|apply keys_set_new].
Qed.

Lemma X8_second_round_overwrites :
  exists pins',
    outcome_of (extraction_body (mock_always TimedOut) (groq, lit "Groq (STT)")
                                [(groq, sample_pin); (openai, sample_pin)])
    = Ok pins'
    /\ pins' = [(groq, FAILED_TO_EXTRACT); (openai, sample_pin)].
Proof.
  destruct (X8_round_updates_its_own_entry (mock_always TimedOut) groq
              (lit "Groq (STT)") [(groq, sample_pin); (openai, sample_pin)])
    as [pins' [E _]].
  exists pins'. split; [exact E|].
  cbn in E. now injection E as <-.
Defined.

End Extras.
